(** * sptp client configuration: defaults, file overlay, CLI overlay, validation

    A shallow embedding of [ptp/sptp/client/config.go] and the properties of
    its configuration resolution: [DefaultConfig], [Config.Validate],
    [ReadConfig], [addrToIPstr] and [PrepareConfig].

    Modelling choices.
    - Go's [int] and [time.Duration] (int64 nanoseconds) are [Z].  The file
      only compares these values and builds constants far below 2^63, so no
      wrap-around is involved.
    - Go strings are [string] (sequences of bytes).
    - [map[string]int] is [gmap string Z].  No map is shared between two
      owners in this file, so maps are stored by value; a nil map and an
      empty map both read as the empty map, which is all the code observes
      ([len] and [range]).
    - [*Config] is a location in a heap of [Config] objects; [nil] is [None].
      Code runs in a state monad over the heap and a trace of the external
      effects (log lines, host lookups, file reads).  A nil or dangling
      dereference is a panic, modelled as [None].
    - A Go result pair [(v, err)] is a pair whose second component is an
      [option error]; [None] is the nil error. *)

From Stdlib Require Import ZArith Lia.
From stdpp Require Import base option list strings gmap fin_maps.

Local Open Scope Z_scope.

(** ** Data *)

(** [time.Duration] and its units, in nanoseconds. *)
Abbreviation Duration := Z (only parsing).
Definition Nanosecond : Duration := 1.
Definition Microsecond : Duration := 1000 * Nanosecond.
Definition Millisecond : Duration := 1000 * Microsecond.
Definition Second : Duration := 1000 * Millisecond.

(** The [error] interface, as far as this file builds and inspects it:
    [New] is an error that only carries a message ([fmt.Errorf] without
    [%w], or an error of a library); [Wrap] is [fmt.Errorf] with a final
    [%w] verb, which keeps the wrapped error. *)
Inductive error : Type :=
  | New (msg : string)
  | Wrap (prefix : string) (inner : error).

(** [err.Error()] *)
Fixpoint Error (e : error) : string :=
  match e with
  | New msg => msg
  | Wrap prefix inner => prefix +:+ Error inner
  end.

Record MeasurementConfig : Type := mkMeasurementConfig {
  PathDelayFilterLength : Z;
  PathDelayFilter : string;
  PathDelayDiscardFilterEnabled : bool;
  PathDelayDiscardBelow : Duration
}.

Record Config : Type := mkConfig {
  Iface : string;
  Timestamping : string;
  MonitoringPort : Z;
  Interval : Duration;
  ExchangeTimeout : Duration;
  DSCP : Z;
  FirstStepThreshold : Duration;
  Servers : gmap string Z;
  Measurement : MeasurementConfig;
  MetricsAggregationWindow : Duration;
  AttemptsTXTS : Z;
  TimeoutTXTS : Duration;
  FreeRunning : bool
}.

(** Field assignments [c.F = v]. *)
Definition set_Iface (v : string) (c : Config) : Config :=
  mkConfig v (Timestamping c) (MonitoringPort c) (Interval c)
    (ExchangeTimeout c) (DSCP c) (FirstStepThreshold c) (Servers c)
    (Measurement c) (MetricsAggregationWindow c) (AttemptsTXTS c)
    (TimeoutTXTS c) (FreeRunning c).

Definition set_MonitoringPort (v : Z) (c : Config) : Config :=
  mkConfig (Iface c) (Timestamping c) v (Interval c)
    (ExchangeTimeout c) (DSCP c) (FirstStepThreshold c) (Servers c)
    (Measurement c) (MetricsAggregationWindow c) (AttemptsTXTS c)
    (TimeoutTXTS c) (FreeRunning c).

Definition set_Interval (v : Duration) (c : Config) : Config :=
  mkConfig (Iface c) (Timestamping c) (MonitoringPort c) v
    (ExchangeTimeout c) (DSCP c) (FirstStepThreshold c) (Servers c)
    (Measurement c) (MetricsAggregationWindow c) (AttemptsTXTS c)
    (TimeoutTXTS c) (FreeRunning c).

Definition set_ExchangeTimeout (v : Duration) (c : Config) : Config :=
  mkConfig (Iface c) (Timestamping c) (MonitoringPort c) (Interval c)
    v (DSCP c) (FirstStepThreshold c) (Servers c)
    (Measurement c) (MetricsAggregationWindow c) (AttemptsTXTS c)
    (TimeoutTXTS c) (FreeRunning c).

Definition set_DSCP (v : Z) (c : Config) : Config :=
  mkConfig (Iface c) (Timestamping c) (MonitoringPort c) (Interval c)
    (ExchangeTimeout c) v (FirstStepThreshold c) (Servers c)
    (Measurement c) (MetricsAggregationWindow c) (AttemptsTXTS c)
    (TimeoutTXTS c) (FreeRunning c).

Definition set_Servers (v : gmap string Z) (c : Config) : Config :=
  mkConfig (Iface c) (Timestamping c) (MonitoringPort c) (Interval c)
    (ExchangeTimeout c) (DSCP c) (FirstStepThreshold c) v
    (Measurement c) (MetricsAggregationWindow c) (AttemptsTXTS c)
    (TimeoutTXTS c) (FreeRunning c).

(** ** What the file takes from outside *)

(** The constants of package [client] that [config.go] uses and another
    file of the package declares.  Their literal values are not in this
    file, so they are parameters. *)
Class Consts : Type := {
  HWTIMESTAMP : string;
  SWTIMESTAMP : string;
  FilterNone : string;
  FilterMean : string;
  FilterMedian : string
}.

(** The standard library, the yaml decoder and the operating system, as
    seen during one call.
    - [quote] is the [%q] verb of [fmt] on a string;
    - [ParseIP s] tells whether [net.ParseIP(s)] is non-nil;
    - [LookupHost], [ReadFile] are [net.LookupHost] and [os.ReadFile];
    - [Unmarshal data c] is [yaml.Unmarshal(data, &p)] for a pointer [p] to
      an object holding [c]: what [p] points to after decoding and the
      error.  The decoder fills the object in place, also when decoding
      fails, and then [p] still points to it: [Some] of the object as
      filled.  For a null document the decoder sets [p] itself to nil and
      reports no error: [None];
    - [rangeOrder m] is the order in which [range] visits the entries of
      the map [m], which Go leaves unspecified: any enumeration of the
      entries. *)
Class Runtime : Type := {
  quote : string → string;
  ParseIP : string → bool;
  LookupHost : string → list string * option error;
  ReadFile : string → string * option error;
  Unmarshal : string → Config → option Config * option error;
  rangeOrder : gmap string Z → list (string * Z);
  rangeOrder_perm : ∀ m, rangeOrder m ≡ₚ map_to_list m
}.

(** ** The heap, the trace and the monad *)

Inductive event : Type :=
  | Warning (msg : string)      (* log.Warningf *)
  | Debug (cfg : Config)        (* log.Debugf("config: %+v", cfg) *)
  | Lookup (host : string)      (* a call of net.LookupHost *)
  | Read (path : string).       (* a call of os.ReadFile *)

(** Locations are indices into the heap; a pointer is a location or nil. *)
Abbreviation loc := nat (only parsing).
Abbreviation ptr := (option nat) (only parsing).

Record state : Type := mkState {
  heap : list Config;
  trace : list event
}.

(** A computation: [None] is a panic. *)
Definition M (A : Type) : Type := state → option (A * state).

Definition ret {A} (a : A) : M A := λ s, Some (a, s).

Definition bind {A B} (m : M A) (f : A → M B) : M B :=
  λ s, match m s with
       | Some (a, s') => f a s'
       | None => None
       end.

#[global] Instance M_ret : MRet M := @ret.
#[global] Instance M_bind : MBind M := λ A B f m, bind m f.

(** [&Config{...}]: a fresh object. *)
Definition new (c : Config) : M ptr :=
  λ s, Some (Some (length (heap s)), mkState (heap s ++ [c]) (trace s)).

(** Reading the object [p] points to. *)
Definition load (p : ptr) : M Config :=
  λ s, match p with
       | Some l => match heap s !! l with
                   | Some c => Some (c, s)
                   | None => None
                   end
       | None => None
       end.

(** An assignment to fields of the object [p] points to. *)
Definition update (p : ptr) (f : Config → Config) : M unit :=
  λ s, match p with
       | Some l => match heap s !! l with
                   | Some c => Some (tt, mkState (<[l := f c]> (heap s)) (trace s))
                   | None => None
                   end
       | None => None
       end.

Definition emit (e : event) : M unit :=
  λ s, Some (tt, mkState (heap s) (trace s ++ [e])).

(** [for i, x := range l { acc = body(acc, i, x) }], with the variables the
    loop assigns carried in [acc]; [i] counts from the given start. *)
Fixpoint rangeFrom {A St} (body : St → nat → A → M St) (i : nat) (l : list A)
    (acc : St) : M St :=
  match l with
  | [] => ret acc
  | x :: l' => acc' ← body acc i x; rangeFrom body (S i) l' acc'
  end.

Definition forRange {A St} (l : list A) (acc : St)
    (body : St → nat → A → M St) : M St :=
  rangeFrom body 0%nat l acc.

(** ** The program *)

Section Program.
Context `{Consts} `{Runtime}.

(** [(c *MeasurementConfig) Validate].  The receiver is the field
    [c.Measurement] of a [Config] and is only read; it is passed by value. *)
Definition MeasurementConfig_Validate (c : MeasurementConfig) : option error :=
  if bool_decide (PathDelayFilterLength c < 0) then
    Some (New "path_delay_filter_length must be 0 or positive")
  else if bool_decide (PathDelayFilter c ≠ FilterNone)
          && bool_decide (PathDelayFilter c ≠ FilterMean)
          && bool_decide (PathDelayFilter c ≠ FilterMedian) then
    Some (New ("path_delay_filter must be either " +:+ quote FilterNone +:+ ", "
               +:+ quote FilterMean +:+ " or " +:+ quote FilterMedian))
  else None.

(** The struct literal of [DefaultConfig]; the fields it does not name
    have their zero values. *)
Definition defaults : Config := {|
  Iface := "";
  Timestamping := HWTIMESTAMP;
  MonitoringPort := 0;
  Interval := Second;
  ExchangeTimeout := 100 * Millisecond;
  DSCP := 0;
  FirstStepThreshold := 0;
  Servers := ∅;
  Measurement := mkMeasurementConfig 0 "" false 0;
  MetricsAggregationWindow := 60 * Second;
  AttemptsTXTS := 10;
  TimeoutTXTS := 50 * Millisecond;
  FreeRunning := false
|}.

Definition DefaultConfig : M ptr := new defaults.

(** [(c *Config) Validate] *)
Definition Validate (p : ptr) : M (option error) :=
  c ← load p;
  ret (
    if bool_decide (Interval c ≤ 0) then
      Some (New "interval must be greater than zero")
    else if bool_decide (AttemptsTXTS c ≤ 0) then
      Some (New "attemptstxts must be greater than zero")
    else if bool_decide (TimeoutTXTS c ≤ 0) then
      Some (New "timeouttxts must be greater than zero")
    else if bool_decide (MetricsAggregationWindow c ≤ 0) then
      Some (New "metricsaggregationwindow must be greater than zero")
    else if bool_decide (MonitoringPort c < 0) then
      Some (New "monitoringport must be 0 or positive")
    else if bool_decide (DSCP c < 0) then
      Some (New "dscp must be 0 or positive")
    else if bool_decide (ExchangeTimeout c ≤ 0)
            || bool_decide (ExchangeTimeout c >= Interval c) then
      Some (New "exchangetimeout must be greater than zero but less than interval")
    else if bool_decide (size (Servers c) = 0%nat) then
      Some (New "at least one server must be specified")
    else if bool_decide (Timestamping c ≠ HWTIMESTAMP)
            && bool_decide (Timestamping c ≠ SWTIMESTAMP) then
      Some (New ("only " +:+ quote HWTIMESTAMP +:+ " and " +:+ quote SWTIMESTAMP
                 +:+ " timestamping is supported"))
    else if bool_decide (Iface c = "") then
      Some (New "iface must be specified")
    else match MeasurementConfig_Validate (Measurement c) with
         | Some err => Some (Wrap "invalid measurement config: " err)
         | None => None
         end).

(** [ReadConfig].  The decoder is given the address of the variable [c]:
    it writes into the object [c] points to, or sets [c] to nil. *)
Definition ReadConfig (path : string) : M (ptr * option error) :=
  c ← DefaultConfig;
  emit (Read path);;
  let '(cData, err) := ReadFile path in
  match err with
  | Some e => ret (None, Some e)
  | None =>
      obj ← load c;
      let '(decoded, err) := Unmarshal cData obj in
      c ← match decoded with
          | Some obj' => update c (λ _, obj');; ret c
          | None => ret None
          end;
      match err with
      | Some e => ret (None, Some e)
      | None => ret (c, None)
      end
  end.

(** [addrToIPstr] *)
Definition addrToIPstr (address : string) : M string :=
  if negb (ParseIP address) then
    emit (Lookup address);;
    let '(names, err) := LookupHost address in
    match err, names with
    | None, name0 :: _ => ret name0
    | _, _ => ret address
    end
  else ret address.

(** The closure [warn] of [PrepareConfig]. *)
Definition warn (name : string) : M unit :=
  emit (Warning ("overriding " +:+ name +:+ " from CLI flag")).

(** [PrepareConfig] *)
Definition PrepareConfig (cfgPath : string) (targets : list string)
    (iface : string) (monitoringPort : Z) (interval : Duration) (dscp : Z)
    : M (ptr * option error) :=
  cfg ← DefaultConfig;
  '(cfg, err) ← (if bool_decide (cfgPath ≠ "") then ReadConfig cfgPath
                 else ret (cfg, None));
  match err with
  | Some e =>
      ret (None, Some (Wrap ("reading config from " +:+ quote cfgPath +:+ ": ") e))
  | None =>
      (if bool_decide (0 < length targets)%nat then
         warn "targets";;
         update cfg (set_Servers ∅);;
         forRange targets tt (λ _ i t,
           address ← addrToIPstr t;
           update cfg (λ c, set_Servers (<[address := Z.of_nat i]> (Servers c)) c))
       else
         c ← load cfg;
         newServers ← forRange (rangeOrder (Servers c)) (∅ : gmap string Z)
           (λ newServers _ '(t, i),
              address ← addrToIPstr t;
              ret (<[address := i]> newServers));
         update cfg (set_Servers newServers));;
      c ← load cfg;
      (if bool_decide (iface ≠ "") && bool_decide (iface ≠ Iface c) then
         warn "iface";; update cfg (set_Iface iface)
       else ret tt);;
      c ← load cfg;
      (if bool_decide (monitoringPort ≠ 0)
          && bool_decide (monitoringPort ≠ MonitoringPort c) then
         warn "monitoringPort";; update cfg (set_MonitoringPort monitoringPort)
       else ret tt);;
      c ← load cfg;
      (if bool_decide (interval ≠ 0) && bool_decide (interval ≠ Interval c) then
         warn "interval";; update cfg (set_Interval interval)
       else ret tt);;
      c ← load cfg;
      (if bool_decide (dscp ≠ 0) && bool_decide (dscp ≠ DSCP c) then
         warn "dscp";; update cfg (set_DSCP dscp)
       else ret tt);;
      verr ← Validate cfg;
      match verr with
      | Some e => ret (None, Some (Wrap "validating config: " e))
      | None =>
          c ← load cfg;
          emit (Debug c);;
          ret (cfg, None)
      end
  end.

End Program.

(** ** Concrete environments, used to run the program *)

(** The double quote character. *)
Definition dquote : string := String (Ascii.ascii_of_nat 34) EmptyString.

(** Constants under which the zero-value filter is the "no filter" one. *)
Definition sampleConsts : Consts := {|
  HWTIMESTAMP := "hardware";
  SWTIMESTAMP := "software";
  FilterNone := "";
  FilterMean := "mean";
  FilterMedian := "median"
|}.

(** The file [/etc/sptp.yaml] of the sample environment sets the interface,
    a DSCP value and two servers given by names with different addresses;
    [/etc/aliases.yaml] gives two names of one host. *)
Definition sampleFile : string :=
  "{iface: eth1, dscp: 35, servers: {host-a: 0, host-b: 1}}".

Definition aliasesFile : string :=
  "{iface: eth1, servers: {ntp-a.example: 0, ntp-b.example: 1}}".

Definition sampleDecoded (c : Config) : Config :=
  set_Iface "eth1" (set_DSCP 35
    (set_Servers (<["host-a" := 0]> (<["host-b" := 1]> ∅)) c)).

Definition aliasesDecoded (c : Config) : Config :=
  set_Iface "eth1"
    (set_Servers (<["ntp-a.example" := 0]> (<["ntp-b.example" := 1]> ∅)) c).

(** An environment with three literal addresses, four resolvable names
    (two of which are names of one host), two readable files, one file
    that does not decode and one file that holds the null document. *)
Definition sampleRuntime : Runtime := {|
  quote s := dquote +:+ s +:+ dquote;
  ParseIP s := bool_decide (s ∈ ["192.0.2.1"; "10.0.0.1"; "10.0.0.2"]);
  LookupHost s :=
    if bool_decide (s = "host-a") then (["10.0.0.1"], None)
    else if bool_decide (s = "host-b") then (["10.0.0.2"; "10.0.0.3"], None)
    else if bool_decide (s = "ntp-a.example") then (["192.0.2.1"], None)
    else if bool_decide (s = "ntp-b.example") then (["192.0.2.1"], None)
    else ([], Some (New ("lookup " +:+ s +:+ ": no such host")));
  ReadFile path :=
    if bool_decide (path = "/etc/sptp.yaml") then (sampleFile, None)
    else if bool_decide (path = "/etc/aliases.yaml") then (aliasesFile, None)
    else if bool_decide (path = "/etc/broken.yaml") then ("{", None)
    else if bool_decide (path = "/etc/null.yaml") then ("null", None)
    else ("", Some (New ("open " +:+ path +:+ ": no such file or directory")));
  Unmarshal data c :=
    if bool_decide (data = sampleFile) then (Some (sampleDecoded c), None)
    else if bool_decide (data = aliasesFile) then
      (Some (aliasesDecoded c), None)
    else if bool_decide (data = "null") then (None, None)
    else (Some c, Some (New "yaml: did not find expected node content"));
  rangeOrder m := map_to_list m;
  rangeOrder_perm m := reflexivity (map_to_list m)
|}.

(** A Config that passes validation under [sampleConsts], with the
    exchange timeout one nanosecond below the interval. *)
Definition sampleConfig : Config := {|
  Iface := "eth0";
  Timestamping := "hardware";
  MonitoringPort := 0;
  Interval := Second;
  ExchangeTimeout := Second - Nanosecond;
  DSCP := 0;
  FirstStepThreshold := 0;
  Servers := <["192.0.2.1" := 0]> ∅;
  Measurement := mkMeasurementConfig 0 "" false 0;
  MetricsAggregationWindow := 60 * Second;
  AttemptsTXTS := 10;
  TimeoutTXTS := 50 * Millisecond;
  FreeRunning := false
|}.

Definition emptyState : state := mkState [] [].


(** ** Summaries used in the proofs *)

Section Summaries.
Context `{Consts} `{Runtime}.

(** What [addrToIPstr] returns. *)
Definition normalized (address : string) : string :=
  if ParseIP address then address
  else match LookupHost address with
       | (name0 :: _, None) => name0
       | _ => address
       end.

(** The host lookups [addrToIPstr] makes on a list of identifiers. *)
Definition lookups (l : list string) : list event :=
  Lookup <$> filter (λ a, ParseIP a = false) l.

(** The entries written by the loop over the CLI targets, started at
    position [i] on the map [m]. *)
Fixpoint fromTargets (i : nat) (targets : list string) (m : gmap string Z)
    : gmap string Z :=
  match targets with
  | [] => m
  | t :: ts => fromTargets (S i) ts (<[normalized t := Z.of_nat i]> m)
  end.

(** The entries written by the loop over an enumeration of a map. *)
Fixpoint fromEntries (l : list (string * Z)) (m : gmap string Z)
    : gmap string Z :=
  match l with
  | [] => m
  | (t, i) :: l' => fromEntries l' (<[normalized t := i]> m)
  end.

(** The values of [cfg] and [err] after lines 143-153 of [PrepareConfig]:
    the Config [cfg] points to, after the defaults and the file, or
    nothing when [cfg] is nil; and the error of reading or decoding the
    file.  [cfg] is nil with an error, and also, without one, when the
    decoder set the pointer to nil. *)
Definition fileStage (cfgPath : string) : option Config * option error :=
  if bool_decide (cfgPath ≠ "") then
    match ReadFile cfgPath with
    | (_, Some e) => (None, Some e)
    | (cData, None) =>
        match Unmarshal cData defaults with
        | (_, Some e) => (None, Some e)
        | (decoded, None) => (decoded, None)
        end
    end
  else (Some defaults, None).

(** The Config that lines 154-187 of [PrepareConfig] leave, from the one
    the defaults/file stage produced. *)
Definition resolved (base : Config) (targets : list string) (iface : string)
    (monitoringPort : Z) (interval : Duration) (dscp : Z) : Config := {|
  Iface := if bool_decide (iface ≠ "") && bool_decide (iface ≠ Iface base)
           then iface else Iface base;
  Timestamping := Timestamping base;
  MonitoringPort :=
    if bool_decide (monitoringPort ≠ 0)
       && bool_decide (monitoringPort ≠ MonitoringPort base)
    then monitoringPort else MonitoringPort base;
  Interval := if bool_decide (interval ≠ 0) && bool_decide (interval ≠ Interval base)
              then interval else Interval base;
  ExchangeTimeout := ExchangeTimeout base;
  DSCP := if bool_decide (dscp ≠ 0) && bool_decide (dscp ≠ DSCP base)
          then dscp else DSCP base;
  FirstStepThreshold := FirstStepThreshold base;
  Servers := if bool_decide (0 < length targets)%nat
             then fromTargets 0 targets ∅
             else fromEntries (rangeOrder (Servers base)) ∅;
  Measurement := Measurement base;
  MetricsAggregationWindow := MetricsAggregationWindow base;
  AttemptsTXTS := AttemptsTXTS base;
  TimeoutTXTS := TimeoutTXTS base;
  FreeRunning := FreeRunning base
|}.

(** What [Validate] answers for a Config [c]: its result on an object
    holding [c]. *)
Definition validation (c : Config) : option error :=
  match Validate (Some 0%nat) (mkState [c] []) with
  | Some (verr, _) => verr
  | None => None
  end.

(** [contains word s]: [word] occurs in [s]. *)
Definition contains (word s : string) : Prop :=
  ∃ pre post, s = pre +:+ word +:+ post.

(** [names word e]: the message of [e] contains [word]. *)
Definition names (word : string) (e : error) : Prop :=
  contains word (Error e).

(** The checks of the validator in the words and the order of the
    specification: when a check is violated, and the word by which its
    failure names what is violated. *)
Definition checks : list ((Config → bool) * string) := [
  (λ c, negb (bool_decide (0 < Interval c)), "interval");
  (λ c, negb (bool_decide (0 < AttemptsTXTS c)), "attemptstxts");
  (λ c, negb (bool_decide (0 < TimeoutTXTS c)), "timeouttxts");
  (λ c, negb (bool_decide (0 < MetricsAggregationWindow c)),
   "metricsaggregationwindow");
  (λ c, negb (bool_decide (0 ≤ MonitoringPort c)), "monitoringport");
  (λ c, negb (bool_decide (0 ≤ DSCP c)), "dscp");
  (λ c, negb (bool_decide (0 < ExchangeTimeout c)
              && bool_decide (ExchangeTimeout c < Interval c)),
   "exchangetimeout");
  (λ c, negb (bool_decide (Servers c ≠ ∅)), "server");
  (λ c, negb (bool_decide (Timestamping c ∈ [HWTIMESTAMP; SWTIMESTAMP])),
   "timestamping");
  (λ c, negb (bool_decide (Iface c ≠ "")), "iface");
  (λ c, negb (bool_decide (0 ≤ PathDelayFilterLength (Measurement c))
              && bool_decide (PathDelayFilter (Measurement c)
                              ∈ [FilterNone; FilterMean; FilterMedian])),
   "measurement")
].

(** How the message of the failure of the check at position [i] begins. *)
Definition leading (i : nat) : string :=
  match i with
  | 0 => "interval must"
  | 1 => "attemptstxts"
  | 2 => "timeouttxts"
  | 3 => "metricsaggregationwindow"
  | 4 => "monitoringport"
  | 5 => "dscp"
  | 6 => "exchangetimeout"
  | 7 => "at least one server"
  | 8 => "only "
  | 9 => "iface"
  | _ => "invalid measurement config: "
  end%nat.

(** The failure [Validate] returns at the check at position [i], when
    that check is the one it stops at: lines 79-110 of the source, one
    [return] each. *)
Definition failure (i : nat) (c : Config) : option error :=
  match i with
  | 0 => Some (New "interval must be greater than zero")
  | 1 => Some (New "attemptstxts must be greater than zero")
  | 2 => Some (New "timeouttxts must be greater than zero")
  | 3 => Some (New "metricsaggregationwindow must be greater than zero")
  | 4 => Some (New "monitoringport must be 0 or positive")
  | 5 => Some (New "dscp must be 0 or positive")
  | 6 => Some (New "exchangetimeout must be greater than zero but less than interval")
  | 7 => Some (New "at least one server must be specified")
  | 8 => Some (New ("only " +:+ quote HWTIMESTAMP +:+ " and "
                    +:+ quote SWTIMESTAMP +:+ " timestamping is supported"))
  | 9 => Some (New "iface must be specified")
  | _ => Wrap "invalid measurement config: "
           <$> MeasurementConfig_Validate (Measurement c)
  end%nat.

(** The first violated check of [c], with its position. *)
Definition firstViolated (c : Config)
    : option (nat * ((Config → bool) * string)) :=
  list_find (λ chk, chk.1 c = true) checks.

(** The server-override law in the words of the specification: the
    normalized address of every identifier is mapped to the position of
    the identifier. *)
Definition eachAtItsPosition (targets : list string) (m : gmap string Z)
    : Prop :=
  ∀ j t, targets !! j = Some t → m !! normalized t = Some (Z.of_nat j).

(** The keys of [m] normalize to pairwise different addresses. *)
Definition distinctAddresses (m : gmap string Z) : Prop :=
  NoDup (normalized <$> (map_to_list m).*1).

(** The re-resolution of a mapping [m] into [m'] in the words of the
    specification: every entry is found under its normalized key with the
    priority it had, the priorities are the same multiset, and no entry is
    dropped. *)
Definition keepsPriorities (m m' : gmap string Z) : Prop :=
  (∀ t v, m !! t = Some v → m' !! normalized t = Some v)
  ∧ (map_to_list m').*2 ≡ₚ (map_to_list m).*2
  ∧ size m' = size m.

(** Every check other than the two bounds on the exchange timeout passes. *)
Definition otherChecks (c : Config) : Prop :=
  0 < Interval c ∧ 0 < AttemptsTXTS c ∧ 0 < TimeoutTXTS c
  ∧ 0 < MetricsAggregationWindow c ∧ 0 ≤ MonitoringPort c ∧ 0 ≤ DSCP c
  ∧ Servers c ≠ ∅
  ∧ Timestamping c ∈ [HWTIMESTAMP; SWTIMESTAMP]
  ∧ Iface c ≠ ""
  ∧ MeasurementConfig_Validate (Measurement c) = None.

End Summaries.

(** ** The effects of a call *)

Section Effects.
Context `{Consts} `{Runtime}.

(** What [ReadConfig] leaves in the object it allocates: the defaults
    when the file cannot be read or the decoder drops the object, else the
    object as the decoder filled it. *)
Definition fileObject (path : string) : Config :=
  match ReadFile path with
  | (_, Some _) => defaults
  | (cData, None) => default defaults (Unmarshal cData defaults).1
  end.

(** What [ReadConfig] returns, with the Config in place of the pointer to
    it. *)
Definition decodeFile (path : string) : option Config * option error :=
  match ReadFile path with
  | (_, Some e) => (None, Some e)
  | (cData, None) =>
      match Unmarshal cData defaults with
      | (_, Some e) => (None, Some e)
      | (decoded, None) => (decoded, None)
      end
  end.

(** The line [warn name] logs. *)
Definition overrideWarning (name : string) : event :=
  Warning ("overriding " +:+ name +:+ " from CLI flag").

(** The events of lines 154-168 of [PrepareConfig]. *)
Definition serversEvents (base : Config) (targets : list string)
    : list event :=
  if bool_decide (0 < length targets)%nat
  then overrideWarning "targets" :: lookups targets
  else lookups (rangeOrder (Servers base)).*1.

(** The events of lines 169-187 of [PrepareConfig]. *)
Definition scalarWarnings (base : Config) (iface : string)
    (monitoringPort : Z) (interval : Duration) (dscp : Z) : list event :=
  (if bool_decide (iface ≠ "") && bool_decide (iface ≠ Iface base)
   then [overrideWarning "iface"] else [])
  ++ (if bool_decide (monitoringPort ≠ 0)
         && bool_decide (monitoringPort ≠ MonitoringPort base)
      then [overrideWarning "monitoringPort"] else [])
  ++ (if bool_decide (interval ≠ 0) && bool_decide (interval ≠ Interval base)
      then [overrideWarning "interval"] else [])
  ++ (if bool_decide (dscp ≠ 0) && bool_decide (dscp ≠ DSCP base)
      then [overrideWarning "dscp"] else []).

End Effects.

(** The hosts looked up, the files read and the Configs logged in a trace,
    in the order of the trace. *)
Definition hostsLookedUp (tr : list event) : list string :=
  omap (λ e, match e with Lookup host => Some host | _ => None end) tr.

Definition filesRead (tr : list event) : list string :=
  omap (λ e, match e with Read path => Some path | _ => None end) tr.

Definition configsLogged (tr : list event) : list Config :=
  omap (λ e, match e with Debug cfg => Some cfg | _ => None end) tr.

Definition warningsLogged (tr : list event) : list string :=
  omap (λ e, match e with Warning msg => Some msg | _ => None end) tr.

(** * Proofs *)

Section Monad.

Lemma bind_eq {A B} (m : M A) (f : A → M B) s :
  (m ≫= f) s = match m s with Some (a, s') => f a s' | None => None end.
Proof. reflexivity. Qed.

Lemma load_insert l c h tr :
  (l < length h)%nat →
  load (Some l) (mkState (<[l:=c]> h) tr) = Some (c, mkState (<[l:=c]> h) tr).
Proof. intros Hl. unfold load; simpl. by rewrite list_lookup_insert_eq. Qed.

Lemma update_insert l f c h tr :
  (l < length h)%nat →
  update (Some l) f (mkState (<[l:=c]> h) tr)
  = Some (tt, mkState (<[l:=f c]> h) tr).
Proof.
  intros Hl. unfold update; simpl.
  by rewrite list_lookup_insert_eq, list_insert_insert_eq.
Qed.

Lemma string_app_assoc (a b c : string) : (a +:+ b) +:+ c = a +:+ b +:+ c.
Proof.
  induction a as [|x a IH]; [reflexivity|].
  change (String x ((a +:+ b) +:+ c) = String x (a +:+ b +:+ c)).
  by rewrite IH.
Qed.

Lemma contains_app_r (word pre s : string) :
  contains word s → contains word (pre +:+ s).
Proof.
  intros (p & q & ->). exists (pre +:+ p), q. by rewrite string_app_assoc.
Qed.

Lemma ret_eq {A} (a : A) s : ret a s = Some (a, s).
Proof. reflexivity. Qed.

Lemma emit_eq e s : emit e s = Some (tt, mkState (heap s) (trace s ++ [e])).
Proof. reflexivity. Qed.

Lemma new_eq c s :
  new c s = Some (Some (length (heap s)), mkState (heap s ++ [c]) (trace s)).
Proof. reflexivity. Qed.

End Monad.

(** One step of a computation whose head is a primitive. *)
Ltac mstep :=
  rewrite ?bind_eq;
  first [ rewrite new_eq | rewrite emit_eq | rewrite ret_eq
        | rewrite load_insert by done | rewrite update_insert by done ];
  cbn [heap trace].

(** Reduce the field projections and assignments. *)
Ltac fields :=
  cbn [Iface Timestamping MonitoringPort Interval ExchangeTimeout DSCP
       FirstStepThreshold Servers Measurement MetricsAggregationWindow
       AttemptsTXTS TimeoutTXTS FreeRunning
       set_Iface set_MonitoringPort set_Interval set_ExchangeTimeout set_DSCP
       set_Servers].

(** Case analysis on one test of the code. *)
Ltac check P :=
  destruct (decide P);
  [ rewrite (bool_decide_eq_true_2 P) by done
  | rewrite (bool_decide_eq_false_2 P) by done ];
  cbn [orb andb].

(** A failure whose message has the word after a known prefix. *)
Ltac names_word :=
  eexists; split; [reflexivity|];
  split; [|eexists; reflexivity];
  first [ exists ""; eexists; reflexivity
        | exists "at least one "; eexists; reflexivity
        | exists "invalid "; eexists; reflexivity ].

#[global] Arguments ret : simpl never.
#[global] Arguments load : simpl never.
#[global] Arguments update : simpl never.
#[global] Arguments emit : simpl never.
#[global] Arguments new : simpl never.

Section Resolution.
Context `{Consts} `{Runtime}.

(** *** The address normalizer *)

Lemma addrToIPstr_run address s :
  addrToIPstr address s
  = Some (normalized address, mkState (heap s) (trace s ++ lookups [address])).
Proof.
  unfold addrToIPstr, normalized, lookups.
  rewrite filter_cons, filter_nil.
  destruct (ParseIP address) eqn:Hip; simpl.
  - rewrite ret_eq, app_nil_r. by destruct s.
  - rewrite bind_eq, emit_eq.
    destruct (LookupHost address) as [[|name0 names] [e|]]; reflexivity.
Qed.

Lemma lookups_cons a l : lookups (a :: l) = lookups [a] ++ lookups l.
Proof.
  unfold lookups. rewrite <- fmap_app. f_equal.
  rewrite !filter_cons, filter_nil. by destruct (decide _).
Qed.

(** *** The two loops over the servers *)

Lemma targets_loop l c h tr ts i :
  (l < length h)%nat →
  rangeFrom (λ (_ : unit) i t,
      address ← addrToIPstr t;
      update (Some l)
        (λ c, set_Servers (<[address := Z.of_nat i]> (Servers c)) c))
    i ts tt (mkState (<[l:=c]> h) tr)
  = Some (tt, mkState (<[l:=set_Servers (fromTargets i ts (Servers c)) c]> h)
                (tr ++ lookups ts)).
Proof.
  intros Hl. revert c tr i.
  induction ts as [|t ts IH]; intros c tr i; simpl.
  - unfold ret, lookups. rewrite filter_nil, fmap_nil, app_nil_r.
    by destruct c.
  - rewrite !bind_eq, addrToIPstr_run. simpl.
    rewrite update_insert by done. rewrite IH. simpl.
    by rewrite (lookups_cons t ts), app_assoc.
Qed.

Lemma entries_loop es acc s i :
  rangeFrom (λ (newServers : gmap string Z) (_ : nat) '(t, i),
      address ← addrToIPstr t;
      ret (<[address := i]> newServers))
    i es acc s
  = Some (fromEntries es acc, mkState (heap s) (trace s ++ lookups es.*1)).
Proof.
  revert acc s i.
  induction es as [|[t v] es IH]; intros acc s i; cbn [rangeFrom].
  - unfold ret, lookups. rewrite fmap_nil, filter_nil, fmap_nil, app_nil_r.
    by destruct s.
  - rewrite !bind_eq, addrToIPstr_run. rewrite ret_eq, IH.
    rewrite fmap_cons. cbn [fst heap trace].
    by rewrite (lookups_cons t es.*1), app_assoc.
Qed.

(** *** Validation reads one object and changes nothing *)

Lemma Validate_run l c s :
  heap s !! l = Some c → Validate (Some l) s = Some (validation c, s).
Proof.
  intros Hl. unfold validation, Validate. rewrite !bind_eq.
  unfold load. cbn [heap]. rewrite Hl. reflexivity.
Qed.

(** One scalar override: [if b { warn(name); cfg.F = v }]. *)
Lemma override_run (b : bool) name f l c h tr :
  (l < length h)%nat →
  (if b then warn name;; update (Some l) f else ret tt)
    (mkState (<[l:=c]> h) tr)
  = Some (tt, mkState (<[l:=if b then f c else c]> h)
                (tr ++ if b then [Warning ("overriding " +:+ name
                                           +:+ " from CLI flag")]
                       else [])).
Proof.
  intros Hl. destruct b.
  - unfold warn. by do 2 mstep.
  - mstep. by rewrite app_nil_r.
Qed.
Lemma insert_snoc {A} (h : list A) (x y : A) :
  <[length h:=y]> (h ++ [x]) = h ++ [y].
Proof. by rewrite insert_app_r_alt, Nat.sub_diag by done. Qed.

(** *** Reading the file *)

Lemma fileStage_decodeFile cfgPath :
  fileStage cfgPath
  = if bool_decide (cfgPath ≠ "") then decodeFile cfgPath
    else (Some defaults, None).
Proof. reflexivity. Qed.

Lemma fileStage_no_file : fileStage "" = (Some defaults, None).
Proof. reflexivity. Qed.

(** After a successful decoding the object holds the decoded Config. *)
Lemma fileObject_decoded path base :
  decodeFile path = (Some base, None) → fileObject path = base.
Proof.
  unfold decodeFile, fileObject.
  destruct (ReadFile path) as [cData [e|]]; [done|].
  by destruct (Unmarshal cData defaults) as [[obj|] [e|]]; intros [= ->].
Qed.

Lemma ReadConfig_exact path s :
  ReadConfig path s
  = Some (match decodeFile path with
          | (Some _, None) => (Some (length (heap s)), None)
          | (_, err) => (None, err)
          end,
          mkState (heap s ++ [fileObject path]) (trace s ++ [Read path])).
Proof.
  unfold ReadConfig, DefaultConfig, decodeFile, fileObject. do 2 mstep.
  destruct (ReadFile path) as [cData [e|]]; [by mstep|].
  rewrite bind_eq. unfold load. cbn [heap].
  rewrite list_lookup_middle by done.
  destruct (Unmarshal cData defaults) as [[obj'|] err]; cbn [fst default].
  - rewrite !bind_eq. unfold update. cbn [heap trace].
    rewrite list_lookup_middle by done. rewrite insert_snoc.
    by destruct err as [e|]; rewrite !ret_eq.
  - rewrite bind_eq, ret_eq. by destruct err; rewrite ret_eq.
Qed.

(** *** The whole of [PrepareConfig] *)

(** Lines 154-168 of [PrepareConfig], on the object at [l]. *)
Lemma servers_exact (l : loc) base h tr targets :
  (l < length h)%nat →
  (if bool_decide (0 < length targets)%nat
   then warn "targets";; update (Some l) (set_Servers ∅);;
        forRange targets ()
          (λ (_ : ()) (i : nat) (t : string),
             address ← addrToIPstr t;
             update (Some l)
               (λ c, set_Servers (<[address:=Z.of_nat i]> (Servers c)) c))
   else c ← load (Some l);
        newServers ← forRange (rangeOrder (Servers c)) (∅ : gmap string Z)
          (λ newServers (_ : nat) '(t, i),
             address ← addrToIPstr t; ret (<[address:=i]> newServers));
        update (Some l) (set_Servers newServers))
    (mkState (<[l:=base]> h) tr)
  = Some (tt, mkState
      (<[l:=set_Servers
              (if bool_decide (0 < length targets)%nat
               then fromTargets 0 targets ∅
               else fromEntries (rangeOrder (Servers base)) ∅) base]> h)
      (tr ++ serversEvents base targets)).
Proof.
  intros Hl. unfold serversEvents.
  destruct (bool_decide (0 < length targets)%nat).
  - unfold warn, forRange, overrideWarning. do 2 mstep.
    rewrite targets_loop by done. by rewrite <- app_assoc.
  - unfold forRange. mstep. rewrite !bind_eq, entries_loop. cbn [heap trace].
    by mstep.
Qed.

(** Lines 154-168 of [PrepareConfig] with [cfg] nil: the first access to
    the object panics, at line 156 or at line 163. *)
Lemma servers_nil targets s :
  (if bool_decide (0 < length targets)%nat
   then warn "targets";; update None (set_Servers ∅);;
        forRange targets ()
          (λ (_ : ()) (i : nat) (t : string),
             address ← addrToIPstr t;
             update None
               (λ c, set_Servers (<[address:=Z.of_nat i]> (Servers c)) c))
   else c ← load None;
        newServers ← forRange (rangeOrder (Servers c)) (∅ : gmap string Z)
          (λ newServers (_ : nat) '(t, i),
             address ← addrToIPstr t; ret (<[address:=i]> newServers));
        update None (set_Servers newServers)) s
  = None.
Proof. by destruct (bool_decide (0 < length targets)%nat). Qed.

(** The rest of [PrepareConfig] once the defaults/file stage left [base]
    in the last object of the heap. *)
Ltac overlay_tail l base :=
  rewrite bind_eq, servers_exact by done;
  unfold resolved, scalarWarnings;
  match goal with
  | |- context [set_Servers ?m base] => set (servers := m) in *; clearbody servers
  end;
  destruct base as [bi bt bm bv be bd bf bs bme bw ba bo br];
  fields;
  mstep; rewrite bind_eq, override_run by done; fields;
  destruct (bool_decide (_ ≠ "") && bool_decide (_ ≠ bi));
  mstep; rewrite bind_eq, override_run by done; fields;
  destruct (bool_decide (_ ≠ 0) && bool_decide (_ ≠ bm));
  mstep; rewrite bind_eq, override_run by done; fields;
  destruct (bool_decide (_ ≠ 0) && bool_decide (_ ≠ bv));
  mstep; rewrite bind_eq, override_run by done; fields;
  destruct (bool_decide (_ ≠ 0) && bool_decide (_ ≠ bd));
  rewrite bind_eq;
  erewrite Validate_run by (cbn [heap]; by apply list_lookup_insert_eq);
  destruct (validation _) as [e|];
  repeat mstep.

(** What a call returns and the state it leaves, for every input.  After
    a file that decodes to nil without an error the call panics. *)
Lemma PrepareConfig_exact cfgPath targets iface monitoringPort interval dscp s :
  PrepareConfig cfgPath targets iface monitoringPort interval dscp s
  = match fileStage cfgPath with
    | (_, Some e) =>
        Some ((None, Some (Wrap ("reading config from " +:+ quote cfgPath
                                 +:+ ": ") e)),
              mkState (heap s ++ [defaults; fileObject cfgPath])
                (trace s ++ [Read cfgPath]))
    | (None, None) => None
    | (Some base, None) =>
        let c := resolved base targets iface monitoringPort interval dscp in
        let fromFile := bool_decide (cfgPath ≠ "") in
        Some
          (match validation c with
           | Some e => (None, Some (Wrap "validating config: " e))
           | None =>
               (Some (length (heap s) + if fromFile then 1 else 0)%nat, None)
           end,
           mkState (heap s ++ if fromFile then [defaults; c] else [c])
             (trace s ++ (if fromFile then [Read cfgPath] else [])
              ++ serversEvents base targets
              ++ scalarWarnings base iface monitoringPort interval dscp
              ++ match validation c with
                 | Some _ => []
                 | None => [Debug c]
                 end))
    end.
Proof.
  unfold PrepareConfig, DefaultConfig. mstep. rewrite bind_eq.
  rewrite fileStage_decodeFile.
  destruct (bool_decide (cfgPath ≠ "")) eqn:Hpath.
  - rewrite ReadConfig_exact. cbn [heap trace].
    pose proof (fileObject_decoded cfgPath) as Hobj.
    destruct (decodeFile cfgPath) as [[base|] [e|]].
    + mstep. by rewrite <- app_assoc.
    + rewrite (Hobj base eq_refl). clear Hobj.
      set (h0 := heap s ++ [defaults]).
      rewrite <- (insert_snoc h0 base base).
      assert (Hlt : (length h0 < length (h0 ++ [base]))%nat)
        by (rewrite length_app; simpl; lia).
      overlay_tail (length h0) base.
      all: rewrite insert_snoc; unfold overrideWarning; subst h0.
      all: rewrite ?length_app; cbn [length].
      all: rewrite <- ?app_assoc, ?app_nil_r; reflexivity.
    + mstep. by rewrite <- app_assoc.
    + by rewrite bind_eq, servers_nil.
  - mstep. generalize defaults. intros base.
    rewrite <- (insert_snoc (heap s) base base).
    assert (Hlt : (length (heap s) < length (heap s ++ [base]))%nat)
      by (rewrite length_app; simpl; lia).
    overlay_tail (length (heap s)) base.
    all: rewrite insert_snoc; unfold overrideWarning.
    all: rewrite ?Nat.add_0_r.
    all: rewrite <- ?app_assoc, ?app_nil_r; reflexivity.
Qed.

(** A Config is returned only after both stages succeeded. *)
Lemma PrepareConfig_returns cfgPath targets iface monitoringPort interval dscp
    s l s' :
  PrepareConfig cfgPath targets iface monitoringPort interval dscp s
  = Some ((Some l, None), s') →
  ∃ base,
    fileStage cfgPath = (Some base, None)
    ∧ heap s' !! l
      = Some (resolved base targets iface monitoringPort interval dscp)
    ∧ validation (resolved base targets iface monitoringPort interval dscp)
      = None.
Proof.
  rewrite PrepareConfig_exact.
  destruct (fileStage cfgPath) as [[base|] [e|]]; [done| |done|done].
  cbv zeta. destruct (validation _) eqn:Hv; [done|].
  intros [= <- <-]. exists base. split; [done|]. split; [|done].
  cbn [heap]. destruct (bool_decide (cfgPath ≠ "")).
  - rewrite lookup_app_r by lia.
    by replace (length (heap s) + 1 - length (heap s))%nat with 1%nat by lia.
  - rewrite lookup_app_r by lia.
    by replace (length (heap s) + 0 - length (heap s))%nat with 0%nat by lia.
Qed.

End Resolution.

(** *** The server mapping written by the loops *)

Section Servers.
Context `{Runtime}.

Lemma fromEntries_snoc es t v (m : gmap string Z) :
  fromEntries (es ++ [(t, v)]) m = <[normalized t:=v]> (fromEntries es m).
Proof.
  revert m. induction es as [|[t' v'] es IH]; intros m; simpl; [done|].
  apply IH.
Qed.

Lemma lookup_snoc_lt {A} (l : list A) (x y : A) (j : nat) :
  (l ++ [x]) !! j = Some y → j ≠ length l → l !! j = Some y.
Proof.
  intros Hj Hne. rewrite lookup_app_l in Hj; [done|].
  apply lookup_lt_Some in Hj. rewrite length_app in Hj. simpl in Hj. lia.
Qed.

(** The entry of a key is the one written last. *)
Lemma fromEntries_lookup es (m : gmap string Z) k v :
  fromEntries es m !! k = Some v ↔
    (∃ j t, es !! j = Some (t, v) ∧ normalized t = k
            ∧ ∀ j' e, (j < j')%nat → es !! j' = Some e → normalized e.1 ≠ k)
    ∨ (m !! k = Some v ∧ ∀ e, e ∈ es → normalized e.1 ≠ k).
Proof.
  induction es as [|[t0 v0] es IH] using rev_ind.
  - simpl. split.
    + intros Hm. right. split; [done|]. intros e He. by apply elem_of_nil in He.
    + intros [(j & t & Hj & _)|[Hm _]]; [by rewrite lookup_nil in Hj|done].
  - rewrite fromEntries_snoc.
    destruct (decide (normalized t0 = k)) as [Hk|Hk].
    + subst k. rewrite lookup_insert_eq. split.
      * intros [= ->]. left. exists (length es), t0.
        split; [by apply list_lookup_middle|]. split; [done|].
        intros j' e Hlt Hj'. apply lookup_lt_Some in Hj'.
        rewrite length_app in Hj'. simpl in Hj'. lia.
      * intros [(j & t & Hj & Ht & Hlast)|[_ Hnone]].
        -- destruct (decide (j = length es)) as [->|Hne].
           ++ rewrite list_lookup_middle in Hj by done. by injection Hj as _ ->.
           ++ exfalso. apply lookup_lt_Some in Hj as Hlt.
              rewrite length_app in Hlt. simpl in Hlt.
              apply (Hlast (length es) (t0, v0));
                [lia|by apply list_lookup_middle|done].
        -- exfalso. apply (Hnone (t0, v0)); [|done].
           apply elem_of_app. right. by apply list_elem_of_singleton.
    + rewrite lookup_insert_ne by done. rewrite IH. split.
      * intros [(j & t & Hj & Ht & Hlast)|[Hm Hnone]].
        -- left. exists j, t. split; [by apply lookup_app_l_Some|].
           split; [done|]. intros j' e Hlt Hj'.
           destruct (decide (j' = length es)) as [->|Hne].
           ++ rewrite list_lookup_middle in Hj' by done. by injection Hj' as <-.
           ++ apply (Hlast j' e Hlt). by eapply lookup_snoc_lt.
        -- right. split; [done|]. intros e [He|He]%elem_of_app; [by apply Hnone|].
           by apply list_elem_of_singleton in He as ->.
      * intros [(j & t & Hj & Ht & Hlast)|[Hm Hnone]].
        -- left. exists j, t.
           assert (j ≠ length es) as Hne.
           { intros ->. rewrite list_lookup_middle in Hj by done.
             injection Hj as -> ->. done. }
           split; [by eapply lookup_snoc_lt|]. split; [done|].
           intros j' e Hlt Hj'. apply (Hlast j' e Hlt).
           by apply lookup_app_l_Some.
        -- right. split; [done|]. intros e He. apply Hnone.
           apply elem_of_app. by left.
Qed.

Lemma fromTargets_fromEntries i ts (m : gmap string Z) :
  fromTargets i ts m
  = fromEntries (imap (λ j t, (t, Z.of_nat (i + j))) ts) m.
Proof.
  revert i m. induction ts as [|t ts IH]; intros i m; [done|].
  rewrite imap_cons. cbn [fromTargets fromEntries].
  rewrite Nat.add_0_r, IH. f_equal. apply imap_ext.
  intros j t' _. simpl. do 2 f_equal. lia.
Qed.

(** After the loop over the targets a key holds the position of the last
    identifier that normalizes to it, and there are no other keys. *)
Lemma fromTargets_lookup ts k v :
  fromTargets 0 ts ∅ !! k = Some v ↔
    ∃ j t, ts !! j = Some t ∧ normalized t = k ∧ v = Z.of_nat j
           ∧ ∀ j' t', (j < j')%nat → ts !! j' = Some t' → normalized t' ≠ k.
Proof.
  rewrite fromTargets_fromEntries, fromEntries_lookup. split.
  - intros [(j & t & Hj & Ht & Hlast)|[Hm _]]; [|by rewrite lookup_empty in Hm].
    apply list_lookup_imap_Some in Hj as (t' & Hj & [= <- ->]).
    exists j, t. repeat split; [done..|].
    intros j' t' Hlt Hj'. apply (Hlast j' (t', Z.of_nat j') Hlt).
    rewrite list_lookup_imap, Hj'. done.
  - intros (j & t & Hj & Ht & -> & Hlast). left. exists j, t.
    split; [by rewrite list_lookup_imap, Hj|]. split; [done|].
    intros j' e Hlt Hj'.
    apply list_lookup_imap_Some in Hj' as (t' & Hj' & ->).
    by apply (Hlast j' t' Hlt).
Qed.

(** When no two entries normalize to the same key, the loop over the
    entries of a map only renames the keys. *)
Lemma fromEntries_list_to_map (es : list (string * Z)) :
  NoDup (normalized <$> es.*1) →
  fromEntries es ∅ = list_to_map (prod_map normalized id <$> es).
Proof.
  intros Hnd. apply map_eq. intros k. apply option_eq. intros v.
  assert (Hkeys : (prod_map normalized id <$> es).*1 = normalized <$> es.*1).
  { rewrite <- !list_fmap_compose. by apply list_fmap_ext; intros ? []. }
  rewrite fromEntries_lookup, <- elem_of_list_to_map by by rewrite Hkeys.
  rewrite list_elem_of_fmap. split.
  - intros [(j & t & Hj & Ht & _)|[Hm _]]; [|by rewrite lookup_empty in Hm].
    exists (t, v). split; [by rewrite <- Ht|]. by eapply list_elem_of_lookup_2.
  - intros ([t v'] & [= -> ->] & Hin). left.
    apply list_elem_of_lookup in Hin as [j Hj]. exists j, t.
    split; [done|]. split; [done|]. intros j' e Hlt Hj' Heq.
    assert (j = j'); [|lia].
    apply (NoDup_lookup _ _ _ (normalized t) Hnd).
    + by rewrite !list_lookup_fmap, Hj.
    + by rewrite !list_lookup_fmap, Hj', <- Heq.
Qed.

Lemma fromEntries_origin es (m : gmap string Z) k v :
  es ≡ₚ map_to_list m →
  fromEntries es ∅ !! k = Some v → ∃ t, m !! t = Some v ∧ normalized t = k.
Proof.
  intros Hperm [(j & t & Hj & Ht & _)|[Hm _]]%fromEntries_lookup;
    [|by rewrite lookup_empty in Hm].
  exists t. split; [|done]. apply elem_of_map_to_list. rewrite <- Hperm.
  by eapply list_elem_of_lookup_2.
Qed.

Lemma fromEntries_is_Some es (m : gmap string Z) t v :
  (t, v) ∈ es → is_Some (fromEntries es m !! normalized t).
Proof.
  induction es as [|[t0 v0] es IH] using rev_ind.
  - by intros ?%elem_of_nil.
  - rewrite fromEntries_snoc. intros [Hin|Hin]%elem_of_app.
    + destruct (decide (normalized t0 = normalized t)) as [->|Hne].
      * rewrite lookup_insert_eq. by eexists.
      * rewrite lookup_insert_ne by done. by apply IH.
    + apply list_elem_of_singleton in Hin as [= -> ->].
      rewrite lookup_insert_eq. by eexists.
Qed.

(** Between keys with pairwise different addresses nothing is lost. *)
Lemma fromEntries_keeps es (m : gmap string Z) :
  es ≡ₚ map_to_list m → distinctAddresses m →
  keepsPriorities m (fromEntries es ∅).
Proof.
  intros Hperm Hnd. unfold distinctAddresses in Hnd. rewrite <- Hperm in Hnd.
  rewrite fromEntries_list_to_map by done.
  assert (Hkeys : (prod_map normalized id <$> es).*1 = normalized <$> es.*1).
  { rewrite <- !list_fmap_compose. by apply list_fmap_ext; intros ? []. }
  assert (Hvals : (prod_map normalized id <$> es).*2 = es.*2).
  { rewrite <- !list_fmap_compose. by apply list_fmap_ext; intros ? []. }
  rewrite <- Hkeys in Hnd. repeat split.
  - intros t v Hm. apply elem_of_list_to_map; [done|].
    apply list_elem_of_fmap. exists (t, v). split; [done|].
    rewrite Hperm. by apply elem_of_map_to_list.
  - by rewrite map_to_list_to_map, Hvals, Hperm.
  - by rewrite map_size_list_to_map, length_fmap, Hperm, length_map_to_list.
Qed.

End Servers.

(** *** The checks of the specification and the tests of the code *)

Section Checks.
Context `{Consts} `{Runtime}.

Lemma not_pos_le (x : Z) : negb (bool_decide (0 < x)) = bool_decide (x ≤ 0).
Proof. repeat case_bool_decide; (done || lia). Qed.

Lemma not_nonneg_lt (x : Z) : negb (bool_decide (0 ≤ x)) = bool_decide (x < 0).
Proof. repeat case_bool_decide; (done || lia). Qed.

Lemma exchange_check (e v : Z) :
  negb (bool_decide (0 < e) && bool_decide (e < v))
  = bool_decide (e ≤ 0) || bool_decide (e >= v).
Proof. repeat case_bool_decide; (done || lia). Qed.

Lemma servers_check (m : gmap string Z) :
  negb (bool_decide (m ≠ ∅)) = bool_decide (size m = 0%nat).
Proof.
  rewrite (bool_decide_ext (size m = 0%nat) (m = ∅))
    by apply map_size_empty_iff.
  by repeat case_bool_decide.
Qed.

Lemma timestamping_check (t a b : string) :
  negb (bool_decide (t ∈ [a; b])) = bool_decide (t ≠ a) && bool_decide (t ≠ b).
Proof.
  rewrite (bool_decide_ext (t ∈ [a; b]) (t = a ∨ t = b)).
  - repeat case_bool_decide; (done || intuition congruence).
  - rewrite !elem_of_cons, elem_of_nil. intuition congruence.
Qed.

Lemma iface_check (i : string) :
  negb (bool_decide (i ≠ "")) = bool_decide (i = "").
Proof. by repeat case_bool_decide. Qed.

Lemma measurement_check (m : MeasurementConfig) :
  negb (bool_decide (0 ≤ PathDelayFilterLength m)
        && bool_decide (PathDelayFilter m
                        ∈ [FilterNone; FilterMean; FilterMedian]))
  = match MeasurementConfig_Validate m with Some _ => true | None => false end.
Proof.
  unfold MeasurementConfig_Validate.
  rewrite (bool_decide_ext
             (PathDelayFilter m ∈ [FilterNone; FilterMean; FilterMedian])
             (PathDelayFilter m = FilterNone ∨ PathDelayFilter m = FilterMean
              ∨ PathDelayFilter m = FilterMedian)).
  - repeat case_bool_decide; simpl; (done || lia || intuition congruence).
  - rewrite !elem_of_cons, elem_of_nil. intuition congruence.
Qed.

Lemma validation_firstViolated (c : Config) :
  match firstViolated c with
  | None => validation c = None
  | Some (i, (_, word)) =>
      ∃ e, validation c = Some e ∧ names word e
           ∧ ∃ rest, Error e = leading i +:+ rest
  end.
Proof.
  unfold validation, Validate, firstViolated, checks.
  unfold mbind, M_bind, bind, load, ret. cbn [heap lookup list_lookup].
  destruct c as [bi bt bm bv be bd bf bs bme bw ba bo br].
  fields. simpl.
  rewrite !not_pos_le, !not_nonneg_lt, exchange_check, servers_check,
    timestamping_check, iface_check, measurement_check.
  destruct (bool_decide (bv ≤ 0)); simpl; [by names_word|].
  destruct (bool_decide (ba ≤ 0)); simpl; [by names_word|].
  destruct (bool_decide (bo ≤ 0)); simpl; [by names_word|].
  destruct (bool_decide (bw ≤ 0)); simpl; [by names_word|].
  destruct (bool_decide (bm < 0)); simpl; [by names_word|].
  destruct (bool_decide (bd < 0)); simpl; [by names_word|].
  destruct (bool_decide (be ≤ 0) || bool_decide (be >= bv)); simpl;
    [by names_word|].
  destruct (bool_decide (size bs = 0%nat)); simpl; [by names_word|].
  destruct (bool_decide (bt ≠ HWTIMESTAMP) && bool_decide (bt ≠ SWTIMESTAMP));
    simpl.
  { eexists; split; [reflexivity|]. split; [|eexists; reflexivity].
    unfold names. cbn [Error].
    do 4 apply contains_app_r. by exists " ", " is supported". }
  destruct (bool_decide (bi = "")); simpl; [by names_word|].
  destruct (MeasurementConfig_Validate bme); simpl; [by names_word|done].
Qed.

(** The validator stops at the first violated check and returns the
    failure of that check, as the source words it. *)
Lemma validation_failure (c : Config) :
  validation c
  = match firstViolated c with
    | None => None
    | Some (i, _) => failure i c
    end.
Proof.
  unfold validation, Validate, firstViolated, checks, failure.
  unfold mbind, M_bind, bind, load, ret. cbn [heap lookup list_lookup].
  destruct c as [bi bt bm bv be bd bf bs bme bw ba bo br].
  fields. simpl.
  rewrite !not_pos_le, !not_nonneg_lt, exchange_check, servers_check,
    timestamping_check, iface_check, measurement_check.
  destruct (bool_decide (bv ≤ 0)); simpl; [done|].
  destruct (bool_decide (ba ≤ 0)); simpl; [done|].
  destruct (bool_decide (bo ≤ 0)); simpl; [done|].
  destruct (bool_decide (bw ≤ 0)); simpl; [done|].
  destruct (bool_decide (bm < 0)); simpl; [done|].
  destruct (bool_decide (bd < 0)); simpl; [done|].
  destruct (bool_decide (be ≤ 0) || bool_decide (be >= bv)); simpl; [done|].
  destruct (bool_decide (size bs = 0%nat)); simpl; [done|].
  destruct (bool_decide (bt ≠ HWTIMESTAMP) && bool_decide (bt ≠ SWTIMESTAMP));
    simpl; [done|].
  destruct (bool_decide (bi = "")); simpl; [done|].
  by destruct (MeasurementConfig_Validate bme).
Qed.

Lemma firstViolated_lt (c : Config) i chk :
  firstViolated c = Some (i, chk) → (i ≤ 10)%nat.
Proof.
  unfold firstViolated. intros (Hi & _)%list_find_Some.
  apply lookup_lt_Some in Hi. unfold checks in Hi. simpl in Hi. lia.
Qed.

(** The failures of two different checks begin differently. *)
Lemma leading_distinct (i i' : nat) (r r' : string) :
  (i ≤ 10)%nat → (i' ≤ 10)%nat → i ≠ i' →
  leading i +:+ r ≠ leading i' +:+ r'.
Proof.
  intros Hi Hi' Hne.
  destruct i as [|[|[|[|[|[|[|[|[|[|[|i]]]]]]]]]]]; [..|lia].
  all: destruct i' as [|[|[|[|[|[|[|[|[|[|[|i']]]]]]]]]]]; [..|lia].
  all: first [ done | cbv; discriminate ].
Qed.

(** When [Validate] lets a Config pass. *)
Lemma validation_None_iff (c : Config) :
  validation c = None
  ↔ otherChecks c ∧ 0 < ExchangeTimeout c ∧ ExchangeTimeout c < Interval c.
Proof.
  unfold validation, Validate, otherChecks.
  unfold mbind, M_bind, bind, load, ret. cbn [heap lookup list_lookup].
  destruct c as [bi bt bm bv be bd bf bs bme bw ba bo br].
  fields.
  check (bv ≤ 0); [split; [done|lia]|].
  check (ba ≤ 0); [split; [done|lia]|].
  check (bo ≤ 0); [split; [done|lia]|].
  check (bw ≤ 0); [split; [done|lia]|].
  check (bm < 0); [split; [done|lia]|].
  check (bd < 0); [split; [done|lia]|].
  check (be ≤ 0); [split; [done|lia]|].
  check (be >= bv); [split; [done|lia]|].
  check (size bs = 0%nat).
  { split; [done|]. rewrite map_size_empty_iff in *. intuition congruence. }
  rewrite map_size_empty_iff in *.
  check (bt ≠ HWTIMESTAMP); [check (bt ≠ SWTIMESTAMP)|].
  { split; [done|]. rewrite !elem_of_cons, elem_of_nil. intuition congruence. }
  all: check (bi = ""); [split; [done|intuition congruence]|].
  all: destruct (MeasurementConfig_Validate bme);
    (split; [try done|intuition congruence]).
  all: intros _; rewrite !elem_of_cons.
  all: repeat split; try first [ lia | done ].
  all: destruct (decide (bt = HWTIMESTAMP)), (decide (bt = SWTIMESTAMP));
    intuition.
Qed.

(** With every other check passed, a violated bound on the exchange
    timeout is what the validator reports. *)
Lemma validation_exchange (c : Config) :
  otherChecks c →
  ExchangeTimeout c ≤ 0 ∨ Interval c ≤ ExchangeTimeout c →
  validation c
  = Some (New "exchangetimeout must be greater than zero but less than interval").
Proof.
  unfold validation, Validate, otherChecks.
  unfold mbind, M_bind, bind, load, ret. cbn [heap lookup list_lookup].
  destruct c as [bi bt bm bv be bd bf bs bme bw ba bo br].
  fields. intros (Hv & Ha & Ho & Hw & Hm & Hd & _) Hex.
  rewrite (bool_decide_eq_false_2 (bv ≤ 0)) by lia.
  rewrite (bool_decide_eq_false_2 (ba ≤ 0)) by lia.
  rewrite (bool_decide_eq_false_2 (bo ≤ 0)) by lia.
  rewrite (bool_decide_eq_false_2 (bw ≤ 0)) by lia.
  rewrite (bool_decide_eq_false_2 (bm < 0)) by lia.
  rewrite (bool_decide_eq_false_2 (bd < 0)) by lia.
  destruct (bool_decide (be ≤ 0)) eqn:Hle; [done|].
  apply bool_decide_eq_false_1 in Hle.
  by rewrite (bool_decide_eq_true_2 (be >= bv)) by lia.
Qed.

End Checks.

(** * The claims *)

Section Claims.
Context `{Consts} `{Runtime}.

(** C8. [DefaultConfig] returns a pointer to a new object whose polling
    interval is 1 second, exchange timeout 100 ms, metrics aggregation
    window 60 s, transmit-timestamp attempts 10, per-attempt timeout 50 ms
    and timestamping mode the hardware one.  It has no side effect: the
    objects that existed are unchanged and nothing is logged, looked up or
    read.  Two calls give two different objects, and assigning to the
    first leaves the second as it was. *)
Theorem DefaultConfig_spec (s : state) :
  ∃ l s' c,
    DefaultConfig s = Some (Some l, s')
    ∧ heap s' !! l = Some c
    ∧ Interval c = 1 * Second ∧ Interval c = 1000000000
    ∧ ExchangeTimeout c = 100 * Millisecond ∧ ExchangeTimeout c = 100000000
    ∧ MetricsAggregationWindow c = 60 * Second
    ∧ MetricsAggregationWindow c = 60000000000
    ∧ AttemptsTXTS c = 10
    ∧ TimeoutTXTS c = 50 * Millisecond ∧ TimeoutTXTS c = 50000000
    ∧ Timestamping c = HWTIMESTAMP
    ∧ heap s !! l = None
    ∧ (∀ l' c', heap s !! l' = Some c' → heap s' !! l' = Some c')
    ∧ trace s' = trace s
    ∧ ∃ l2 s2,
        DefaultConfig s' = Some (Some l2, s2)
        ∧ l2 ≠ l
        ∧ heap s2 !! l = Some c ∧ heap s2 !! l2 = Some c
        ∧ ∀ f, ∃ s3, update (Some l) f s2 = Some (tt, s3)
                     ∧ heap s3 !! l = Some (f c)
                     ∧ heap s3 !! l2 = Some c.
Proof.
  unfold DefaultConfig. rewrite new_eq.
  eexists _, _, defaults. split; [reflexivity|]. cbn [heap trace].
  split; [by apply list_lookup_middle|].
  do 10 (split; [reflexivity|]).
  split; [by apply lookup_ge_None_2|].
  split; [intros l' c' Hl'; by apply lookup_app_l_Some|].
  split; [reflexivity|].
  rewrite new_eq. cbn [heap trace]. eexists _, _. split; [reflexivity|].
  rewrite length_app. cbn [length].
  split; [lia|].
  assert (Hl : ((heap s ++ [defaults]) ++ [defaults]) !! length (heap s)
               = Some defaults).
  { apply lookup_app_l_Some. by apply list_lookup_middle. }
  assert (Hl2 : ((heap s ++ [defaults]) ++ [defaults])
                  !! (length (heap s) + 1)%nat = Some defaults).
  { apply list_lookup_middle. rewrite length_app. cbn. lia. }
  split; [done|]. split; [done|].
  intros f. unfold update. cbn [heap trace]. rewrite Hl.
  eexists. split; [reflexivity|]. cbn [heap].
  split.
  - apply list_lookup_insert_eq. rewrite !length_app. cbn. lia.
  - rewrite list_lookup_insert_ne by lia. done.
Qed.

(** C5. [addrToIPstr] always returns.  A string that parses as a literal
    address is returned unchanged and no host lookup is made.  Otherwise
    exactly one lookup is made: when it succeeds with at least one result
    the first result is returned, and when it fails or gives no result the
    string itself is returned.  No object is changed. *)
Theorem addrToIPstr_never_fails (address : string) (s : state) :
  ∃ r s',
    addrToIPstr address s = Some (r, s')
    ∧ heap s' = heap s
    ∧ match ParseIP address, LookupHost address with
      | true, _ => r = address ∧ trace s' = trace s
      | false, (name0 :: _, None) =>
          r = name0 ∧ trace s' = trace s ++ [Lookup address]
      | false, ([], None) | false, (_, Some _) =>
          r = address ∧ trace s' = trace s ++ [Lookup address]
      end.
Proof.
  rewrite addrToIPstr_run. eexists _, _. split; [reflexivity|].
  cbn [heap trace]. split; [reflexivity|].
  unfold normalized, lookups. rewrite filter_cons, filter_nil.
  destruct (ParseIP address); cbn.
  - by rewrite app_nil_r.
  - by destruct (LookupHost address) as [[|name0 names] [e|]].
Qed.

(** C4. [Validate] is fail-fast: it answers with the failure of the first
    violated check, and with that failure alone, in the order: polling
    interval, transmit-timestamp attempts, per-attempt timeout, metrics
    aggregation window, monitoring port, DSCP, exchange timeout, server
    mapping, timestamping mode, interface name, nested measurement
    configuration; it answers with no error when no check is violated.
    The message of a failure contains the word for what is violated, and
    two Configs whose first violated checks differ get different
    messages.  The state after the call is the state before it. *)
Theorem Validate_fail_fast (l : loc) (c : Config) (s : state) :
  heap s !! l = Some c →
  ∃ verr,
    Validate (Some l) s = Some (verr, s)
    ∧ verr = match firstViolated c with
             | None => None
             | Some (i, _) => failure i c
             end
    ∧ match firstViolated c with
      | None => verr = None
      | Some (_, (_, word)) => ∃ e, verr = Some e ∧ names word e
      end
    ∧ ∀ l' c' verr',
        heap s !! l' = Some c' →
        Validate (Some l') s = Some (verr', s) →
        fst <$> firstViolated c ≠ fst <$> firstViolated c' →
        Error <$> verr ≠ Error <$> verr'.
Proof.
  intros Hl. rewrite (Validate_run l c s Hl). eexists. split; [reflexivity|].
  split; [apply validation_failure|].
  pose proof (validation_firstViolated c) as Hc.
  split.
  - destruct (firstViolated c) as [[i [p word]]|]; [|done].
    destruct Hc as (e & He & Hnames & _). by exists e.
  - intros l' c' verr' Hl'. rewrite (Validate_run l' c' s Hl').
    intros [= <-] Hdiff.
    pose proof (validation_firstViolated c') as Hc'.
    destruct (firstViolated c) as [[i [p word]]|] eqn:Hi,
      (firstViolated c') as [[i' [p' word']]|] eqn:Hi'.
    + destruct Hc as (e & -> & _ & r & Hr), Hc' as (e' & -> & _ & r' & Hr').
      simpl. rewrite Hr, Hr'. intros [= Heq]. revert Heq.
      apply leading_distinct;
        [by eapply firstViolated_lt..|by intros ->].
    + destruct Hc as (e & -> & _). by rewrite Hc'.
    + destruct Hc' as (e' & -> & _). by rewrite Hc.
    + done.
Qed.

(** C3. [Validate] enforces both bounds of [0 < ExchangeTimeout < Interval],
    and both strictly.  Every Config whose exchange timeout is zero or
    negative, or equal to its interval or above it, fails validation,
    whatever its other fields: so does one whose exchange timeout is zero,
    and one whose exchange timeout equals its interval.  For a Config
    whose other fields pass their checks, validation passes exactly when
    the exchange timeout is positive and below the interval, and fails
    with the failure of the exchange-timeout check otherwise: so a
    positive exchange timeout one nanosecond below the interval passes. *)
Theorem Validate_exchange_timeout_boundary (l : loc) (c : Config) (s : state) :
  heap s !! l = Some c →
  (ExchangeTimeout c ≤ 0 ∨ Interval c ≤ ExchangeTimeout c →
   ∃ e, Validate (Some l) s = Some (Some e, s))
  ∧ (ExchangeTimeout c = 0 → ∃ e, Validate (Some l) s = Some (Some e, s))
  ∧ (ExchangeTimeout c = Interval c →
     ∃ e, Validate (Some l) s = Some (Some e, s))
  ∧ (otherChecks c →
     (Validate (Some l) s = Some (None, s)
      ↔ 0 < ExchangeTimeout c ∧ ExchangeTimeout c < Interval c)
     ∧ (ExchangeTimeout c ≤ 0 ∨ Interval c ≤ ExchangeTimeout c →
        Validate (Some l) s
        = Some (Some (New "exchangetimeout must be greater than zero but less than interval"),
                s))
     ∧ (0 < ExchangeTimeout c →
        ExchangeTimeout c = Interval c - Nanosecond →
        Validate (Some l) s = Some (None, s))).
Proof.
  intros Hl. rewrite (Validate_run _ _ _ Hl).
  assert (Hfails : ExchangeTimeout c ≤ 0 ∨ Interval c ≤ ExchangeTimeout c →
                   ∃ e, Some (validation c, s) = Some (Some e, s)).
  { intros Hex. destruct (validation c) as [e|] eqn:Hv; [by exists e|].
    apply validation_None_iff in Hv. lia. }
  split; [done|].
  split; [intros Hzero; apply Hfails; lia|].
  split; [intros Heq; apply Hfails; lia|].
  intros Hother. split; [|split].
  - split.
    + intros [= Hv]. by apply validation_None_iff in Hv as (_ & Hb).
    + intros Hb. do 2 f_equal. by apply validation_None_iff.
  - intros Hex. by rewrite (validation_exchange c Hother Hex).
  - intros Hpos Hless. do 2 f_equal. apply validation_None_iff.
    unfold Nanosecond in Hless. split; [done|lia].
Qed.

(** C1. When [PrepareConfig] returns a Config, each of [Iface],
    [MonitoringPort], [Interval] and [DSCP] holds the CLI value if that
    value is not the zero value of its type and differs from the value
    after the defaults/file stage, and holds the value after the
    defaults/file stage if the CLI value is the zero value or equals it. *)
Theorem PrepareConfig_scalar_overrides cfgPath targets iface monitoringPort
    interval dscp s l s' :
  PrepareConfig cfgPath targets iface monitoringPort interval dscp s
  = Some ((Some l, None), s') →
  ∃ base c,
    fileStage cfgPath = (Some base, None) ∧ heap s' !! l = Some c
    ∧ (iface ≠ "" → iface ≠ Iface base → Iface c = iface)
    ∧ (iface = "" ∨ iface = Iface base → Iface c = Iface base)
    ∧ (monitoringPort ≠ 0 → monitoringPort ≠ MonitoringPort base →
       MonitoringPort c = monitoringPort)
    ∧ (monitoringPort = 0 ∨ monitoringPort = MonitoringPort base →
       MonitoringPort c = MonitoringPort base)
    ∧ (interval ≠ 0 → interval ≠ Interval base → Interval c = interval)
    ∧ (interval = 0 ∨ interval = Interval base → Interval c = Interval base)
    ∧ (dscp ≠ 0 → dscp ≠ DSCP base → DSCP c = dscp)
    ∧ (dscp = 0 ∨ dscp = DSCP base → DSCP c = DSCP base).
Proof.
  intros (base & Hstage & Hl & _)%PrepareConfig_returns.
  exists base, (resolved base targets iface monitoringPort interval dscp).
  split; [done|]. split; [done|]. unfold resolved. fields.
  repeat split; intros; repeat case_bool_decide; simpl;
    first [ done | intuition congruence ].
Qed.

(** C10. When [PrepareConfig] returns a Config, its fields [Timestamping],
    [ExchangeTimeout], [FirstStepThreshold], [Measurement],
    [MetricsAggregationWindow], [AttemptsTXTS], [TimeoutTXTS] and
    [FreeRunning] are those of the Config after the defaults/file stage. *)
Theorem PrepareConfig_frame cfgPath targets iface monitoringPort interval dscp
    s l s' :
  PrepareConfig cfgPath targets iface monitoringPort interval dscp s
  = Some ((Some l, None), s') →
  ∃ base c,
    fileStage cfgPath = (Some base, None) ∧ heap s' !! l = Some c
    ∧ Timestamping c = Timestamping base
    ∧ ExchangeTimeout c = ExchangeTimeout base
    ∧ FirstStepThreshold c = FirstStepThreshold base
    ∧ Measurement c = Measurement base
    ∧ MetricsAggregationWindow c = MetricsAggregationWindow base
    ∧ AttemptsTXTS c = AttemptsTXTS base
    ∧ TimeoutTXTS c = TimeoutTXTS base
    ∧ FreeRunning c = FreeRunning base.
Proof.
  intros (base & Hstage & Hl & _)%PrepareConfig_returns.
  exists base, (resolved base targets iface monitoringPort interval dscp).
  by repeat split.
Qed.

(** C9. With no file, the single target [192.0.2.1], the interface [eth0]
    and no other override, [PrepareConfig] returns a Config with
    [Servers] the mapping of [192.0.2.1] to 0, [Iface] [eth0], [Interval]
    1 second and [ExchangeTimeout] 100 ms, and that Config passes
    [Validate].  ([192.0.2.1] is taken to parse as a literal address, and
    the empty filter name to be one of the supported filters.) *)
Theorem PrepareConfig_scenario (s : state) :
  ParseIP "192.0.2.1" = true →
  "" ∈ [FilterNone; FilterMean; FilterMedian] →
  ∃ l s' c,
    PrepareConfig "" ["192.0.2.1"] "eth0" 0 0 0 s = Some ((Some l, None), s')
    ∧ heap s' !! l = Some c
    ∧ Servers c = {["192.0.2.1" := 0]}
    ∧ Iface c = "eth0"
    ∧ Interval c = 1 * Second
    ∧ ExchangeTimeout c = 100 * Millisecond
    ∧ Validate (Some l) s' = Some (None, s').
Proof.
  intros Hip Hfilter.
  assert (Hservers :
    Servers (resolved defaults ["192.0.2.1"] "eth0" 0 0 0)
    = {["192.0.2.1" := 0]}).
  { unfold resolved. fields. cbn [length].
    rewrite bool_decide_eq_true_2 by lia.
    cbn [fromTargets]. unfold normalized. rewrite Hip.
    by rewrite insert_empty. }
  assert (Hvalid : validation (resolved defaults ["192.0.2.1"] "eth0" 0 0 0)
                   = None).
  { apply validation_None_iff.
    unfold otherChecks. rewrite Hservers. unfold resolved, defaults. fields.
    unfold MeasurementConfig_Validate.
    cbn [PathDelayFilterLength PathDelayFilter].
    rewrite !elem_of_cons, elem_of_nil in Hfilter.
    repeat split; try (vm_compute; congruence).
    - apply list_elem_of_here.
    - rewrite (bool_decide_eq_false_2 (0 < 0)) by lia.
      destruct (decide ("" = FilterNone)), (decide ("" = FilterMean)),
        (decide ("" = FilterMedian));
        rewrite ?(bool_decide_eq_true_2 (_ ≠ _)) by done;
        rewrite ?(bool_decide_eq_false_2 (_ ≠ _)) by (intros Hn; by apply Hn);
        simpl; first [ done | intuition congruence ]. }
  rewrite PrepareConfig_exact.
  rewrite fileStage_no_file. cbv beta iota zeta.
  rewrite Hvalid.
  rewrite (bool_decide_eq_false_2 ("" ≠ "")) by (by intros []).
  set (c := resolved defaults ["192.0.2.1"] "eth0" 0 0 0) in *.
  assert (Hl : (heap s ++ [c]) !! (length (heap s) + 0)%nat = Some c).
  { rewrite Nat.add_0_r. by apply list_lookup_middle. }
  eexists _, _, c. split; [reflexivity|]. cbn [heap].
  split; [exact Hl|]. split; [done|].
  split; [reflexivity|]. split; [reflexivity|]. split; [reflexivity|].
  erewrite Validate_run by (cbn [heap]; exact Hl). by rewrite Hvalid.
Qed.

(** C2, amended.  With a non-empty list of CLI targets, the [Servers] of
    the returned Config are built from that list alone: its keys are the
    normalized addresses of the identifiers, and a key is mapped to the
    position of the last identifier that normalizes to it.  When the
    normalized addresses of the identifiers are pairwise different, each
    of them is mapped to the position of its identifier; so two targets
    with different normalized addresses give exactly the mapping of the
    first address to 0 and of the second to 1. *)
Theorem PrepareConfig_targets_override cfgPath targets iface monitoringPort
    interval dscp s l s' :
  targets ≠ [] →
  PrepareConfig cfgPath targets iface monitoringPort interval dscp s
  = Some ((Some l, None), s') →
  ∃ c,
    heap s' !! l = Some c
    ∧ (∀ k v, Servers c !! k = Some v ↔
         ∃ j t, targets !! j = Some t ∧ normalized t = k ∧ v = Z.of_nat j
                ∧ ∀ j' t', (j < j')%nat → targets !! j' = Some t' →
                           normalized t' ≠ k)
    ∧ (NoDup (normalized <$> targets) → eachAtItsPosition targets (Servers c))
    ∧ (∀ a b, targets = [a; b] → normalized a ≠ normalized b →
              Servers c = {[normalized a := 0; normalized b := 1]}).
Proof.
  intros Hne (base & Hstage & Hl & _)%PrepareConfig_returns.
  eexists. split; [done|]. unfold resolved. fields.
  rewrite bool_decide_eq_true_2 by (destruct targets; [done|simpl; lia]).
  split; [apply fromTargets_lookup|]. split.
  - intros Hnd j t Hj. apply fromTargets_lookup. exists j, t.
    repeat split; [done|]. intros j' t' Hlt Hj' Heq.
    assert (j = j'); [|lia].
    apply (NoDup_lookup _ _ _ (normalized t) Hnd).
    + by rewrite list_lookup_fmap, Hj.
    + by rewrite list_lookup_fmap, Hj', <- Heq.
  - intros a b -> Hab. cbn [fromTargets]. by apply insert_insert_ne.
Qed.

(** C6, amended.  With no CLI targets, the [Servers] of the returned Config
    have as keys the normalized addresses of the keys the defaults/file
    stage gave, and every priority in it is the priority of an entry whose
    key normalizes to that address.  When the keys normalize to pairwise
    different addresses, each entry keeps its priority under its
    normalized address, the multiset of priorities is the same and no
    entry is dropped. *)
Theorem PrepareConfig_renames_servers cfgPath iface monitoringPort interval
    dscp s l s' :
  PrepareConfig cfgPath [] iface monitoringPort interval dscp s
  = Some ((Some l, None), s') →
  ∃ base c,
    fileStage cfgPath = (Some base, None) ∧ heap s' !! l = Some c
    ∧ (∀ k, is_Some (Servers c !! k) ↔
            ∃ t, is_Some (Servers base !! t) ∧ normalized t = k)
    ∧ (∀ k v, Servers c !! k = Some v →
              ∃ t, Servers base !! t = Some v ∧ normalized t = k)
    ∧ (distinctAddresses (Servers base) →
       keepsPriorities (Servers base) (Servers c)).
Proof.
  intros (base & Hstage & Hl & _)%PrepareConfig_returns.
  eexists base, _. split; [done|]. split; [done|]. unfold resolved. fields.
  cbn [length]. rewrite bool_decide_eq_false_2 by lia.
  pose proof (rangeOrder_perm (Servers base)) as Hperm.
  split; [|split].
  - intros k. split.
    + intros [v (t & Ht & Hk)%(fromEntries_origin _ (Servers base))]; [|done].
      exists t. split; [by eexists|done].
    + intros (t & [v Ht] & <-). apply (fromEntries_is_Some _ _ t v).
      rewrite Hperm. by apply elem_of_map_to_list.
  - intros k v. by apply fromEntries_origin.
  - by apply fromEntries_keeps.
Qed.

End Claims.

(** * Further properties *)

(** *** The events of a run, by kind *)

Section Traces.
Context `{Runtime}.

Lemma hostsLookedUp_app tr1 tr2 :
  hostsLookedUp (tr1 ++ tr2) = hostsLookedUp tr1 ++ hostsLookedUp tr2.
Proof. apply omap_app. Qed.

Lemma filesRead_app tr1 tr2 :
  filesRead (tr1 ++ tr2) = filesRead tr1 ++ filesRead tr2.
Proof. apply omap_app. Qed.

Lemma configsLogged_app tr1 tr2 :
  configsLogged (tr1 ++ tr2) = configsLogged tr1 ++ configsLogged tr2.
Proof. apply omap_app. Qed.

Lemma warningsLogged_app tr1 tr2 :
  warningsLogged (tr1 ++ tr2) = warningsLogged tr1 ++ warningsLogged tr2.
Proof. apply omap_app. Qed.

Lemma lookups_hosts l :
  hostsLookedUp (lookups l) = filter (λ a, ParseIP a = false) l
  ∧ filesRead (lookups l) = []
  ∧ configsLogged (lookups l) = []
  ∧ warningsLogged (lookups l) = [].
Proof.
  unfold lookups. induction (filter (λ a, ParseIP a = false) l) as [|a l' IH].
  - done.
  - destruct IH as (IH1 & IH2 & IH3 & IH4). repeat split; [|done..].
    rewrite fmap_cons. unfold hostsLookedUp in *. cbn [omap list_omap].
    by rewrite IH1.
Qed.

End Traces.

Section MoreServers.
Context `{Runtime}.

Lemma fromEntries_size es (m : gmap string Z) :
  (size (fromEntries es m) ≤ size m + length es)%nat.
Proof.
  induction es as [|[t v] es IH] using rev_ind.
  - simpl. lia.
  - rewrite fromEntries_snoc, length_app, map_size_insert. simpl.
    destruct (fromEntries es m !! normalized t); unfold id; lia.
Qed.

Lemma fromTargets_size ts : (size (fromTargets 0 ts ∅) ≤ length ts)%nat.
Proof.
  rewrite fromTargets_fromEntries.
  etrans; [apply fromEntries_size|]. rewrite map_size_empty, length_imap. lia.
Qed.

Lemma fromTargets_nonempty ts : ts ≠ [] → fromTargets 0 ts ∅ ≠ ∅.
Proof.
  destruct ts as [|t ts]; [done|]. intros _ Hempty.
  rewrite fromTargets_fromEntries in Hempty.
  destruct (fromEntries_is_Some
              (imap (λ j t0, (t0, Z.of_nat (0 + j))) (t :: ts)) ∅ t 0)
    as [v Hv].
  - rewrite imap_cons. apply list_elem_of_here.
  - by rewrite Hempty, lookup_empty in Hv.
Qed.

Lemma rangeOrder_empty : rangeOrder (∅ : gmap string Z) = [].
Proof.
  apply Permutation_nil_r. rewrite rangeOrder_perm.
  by rewrite map_to_list_empty.
Qed.

End MoreServers.

(** *** Properties of the functions and of their composition *)

Section Extras.
Context `{Consts} `{Runtime}.

Lemma MeasurementConfig_Validate_None (c : MeasurementConfig) :
  MeasurementConfig_Validate c = None ↔
    0 ≤ PathDelayFilterLength c
    ∧ PathDelayFilter c ∈ [FilterNone; FilterMean; FilterMedian].
Proof.
  pose proof (measurement_check c) as Hc.
  destruct (MeasurementConfig_Validate c) as [e|]; split; try done.
  - intros [Hlen Hfilter].
    rewrite !bool_decide_eq_true_2 in Hc by done. done.
  - intros _. apply negb_false_iff, andb_true_iff in Hc as [Hlen Hfilter].
    by apply bool_decide_eq_true in Hlen, Hfilter.
Qed.

(** X1. [MeasurementConfig.Validate] accepts exactly the configurations
    whose filter length is not negative and whose filter is one of the
    three supported ones.  A negative length is reported whatever the
    filter is, and the two fields of the discard filter are not looked
    at. *)
Theorem MeasurementConfig_Validate_spec (c : MeasurementConfig) :
  (MeasurementConfig_Validate c = None ↔
     0 ≤ PathDelayFilterLength c
     ∧ PathDelayFilter c ∈ [FilterNone; FilterMean; FilterMedian])
  ∧ (PathDelayFilterLength c < 0 →
     MeasurementConfig_Validate c
     = Some (New "path_delay_filter_length must be 0 or positive"))
  ∧ (∀ enabled below,
       MeasurementConfig_Validate
         (mkMeasurementConfig (PathDelayFilterLength c) (PathDelayFilter c)
            enabled below)
       = MeasurementConfig_Validate c).
Proof.
  split; [apply MeasurementConfig_Validate_None|]. split.
  - intros Hneg. unfold MeasurementConfig_Validate.
    by rewrite bool_decide_eq_true_2.
  - done.
Qed.

(** X2. [ReadConfig] reads the file once and changes no object that
    existed.  When reading fails, or decoding, it returns the nil pointer
    and that error as it is.  When the decoder reports no error but sets
    the pointer to nil, as for a null document, it returns the nil pointer
    and no error.  Otherwise it returns a pointer to a new object holding
    what the decoder made of the defaults. *)
Theorem ReadConfig_spec (path : string) (s : state) :
  ∃ res s',
    ReadConfig path s = Some (res, s')
    ∧ trace s' = trace s ++ [Read path]
    ∧ (∀ l c, heap s !! l = Some c → heap s' !! l = Some c)
    ∧ match ReadFile path with
      | (_, Some e) => res = (None, Some e)
      | (cData, None) =>
          match Unmarshal cData defaults with
          | (_, Some e) => res = (None, Some e)
          | (None, None) => res = (None, None)
          | (Some obj, None) =>
              ∃ l, res = (Some l, None) ∧ heap s !! l = None
                   ∧ heap s' !! l = Some obj
          end
      end.
Proof.
  rewrite ReadConfig_exact. eexists _, _. split; [reflexivity|].
  cbn [heap trace]. split; [done|].
  split; [intros l c Hl; by apply lookup_app_l_Some|].
  unfold decodeFile, fileObject.
  destruct (ReadFile path) as [cData [e|]]; [done|].
  destruct (Unmarshal cData defaults) as [[obj|] [e|]]; [done| |done|done].
  exists (length (heap s)). split; [done|].
  split; [by apply lookup_ge_None_2|by apply list_lookup_middle].
Qed.

(** X3. [Validate] returns no error exactly for the Configs that satisfy
    all its constraints. *)
Theorem Validate_passes_iff (l : loc) (c : Config) (s : state) :
  heap s !! l = Some c →
  Validate (Some l) s = Some (None, s) ↔
    0 < Interval c ∧ 0 < AttemptsTXTS c ∧ 0 < TimeoutTXTS c
    ∧ 0 < MetricsAggregationWindow c ∧ 0 ≤ MonitoringPort c ∧ 0 ≤ DSCP c
    ∧ 0 < ExchangeTimeout c ∧ ExchangeTimeout c < Interval c
    ∧ Servers c ≠ ∅
    ∧ Timestamping c ∈ [HWTIMESTAMP; SWTIMESTAMP]
    ∧ Iface c ≠ ""
    ∧ 0 ≤ PathDelayFilterLength (Measurement c)
    ∧ PathDelayFilter (Measurement c)
      ∈ [FilterNone; FilterMean; FilterMedian].
Proof.
  intros Hl. rewrite (Validate_run _ _ _ Hl).
  assert (Some (validation c, s) = Some (None, s) ↔ validation c = None)
    as -> by (split; [by intros [= ->]|by intros ->]).
  rewrite validation_None_iff. unfold otherChecks.
  rewrite MeasurementConfig_Validate_None. tauto.
Qed.

(** X4. The object [DefaultConfig] returns does not pass [Validate]: it
    has no server.  Once a non-empty server mapping and a non-empty
    interface name are assigned to it, it passes, provided the empty
    filter name is one of the supported filters. *)
Theorem DefaultConfig_valid_once_completed (servers : gmap string Z)
    (iface : string) (s : state) :
  servers ≠ ∅ → iface ≠ "" →
  "" ∈ [FilterNone; FilterMean; FilterMedian] →
  (∃ s', (p ← DefaultConfig; Validate p) s
         = Some (Some (New "at least one server must be specified"), s'))
  ∧ (∃ s', (p ← DefaultConfig;
            update p (set_Servers servers);;
            update p (set_Iface iface);;
            Validate p) s = Some (None, s')).
Proof.
  intros Hservers Hiface Hfilter. unfold DefaultConfig. split.
  - mstep. erewrite Validate_run by by apply list_lookup_middle.
    eexists. reflexivity.
  - mstep. rewrite <- (insert_snoc (heap s) defaults defaults).
    assert ((length (heap s) < length (heap s ++ [defaults]))%nat)
      by (rewrite length_app; simpl; lia).
    do 2 mstep.
    erewrite Validate_run by (cbn [heap]; by apply list_lookup_insert_eq).
    eexists. do 2 f_equal. apply validation_None_iff.
    unfold otherChecks, defaults. fields.
    rewrite MeasurementConfig_Validate_None.
    cbn [PathDelayFilterLength PathDelayFilter].
    repeat split; try done; try (by vm_compute).
    apply list_elem_of_here.
Qed.

End Extras.

Section Extras2.
Context `{Consts} `{Runtime}.

(** The scalar fields after the CLI overlay. *)
Lemma resolved_scalars base targets iface monitoringPort interval dscp :
  let c := resolved base targets iface monitoringPort interval dscp in
  Iface c = (if decide (iface = "") then Iface base else iface)
  ∧ MonitoringPort c
    = (if decide (monitoringPort = 0) then MonitoringPort base
       else monitoringPort)
  ∧ Interval c = (if decide (interval = 0) then Interval base else interval)
  ∧ DSCP c = (if decide (dscp = 0) then DSCP base else dscp).
Proof.
  unfold resolved. fields.
  repeat split; repeat case_bool_decide; repeat case_decide; simpl;
    congruence.
Qed.

Lemma resolved_Servers_nonempty base targets iface monitoringPort interval
    dscp :
  targets ≠ [] →
  Servers (resolved base targets iface monitoringPort interval dscp) ≠ ∅.
Proof.
  intros Hne. unfold resolved. fields.
  rewrite bool_decide_eq_true_2 by (destruct targets; [done|simpl; lia]).
  by apply fromTargets_nonempty.
Qed.

Lemma resolved_Servers_empty iface monitoringPort interval dscp :
  Servers (resolved defaults [] iface monitoringPort interval dscp) = ∅.
Proof.
  unfold resolved, defaults. fields. cbn [length].
  rewrite bool_decide_eq_false_2 by lia. by rewrite rangeOrder_empty.
Qed.

(** What a call returns. *)
Lemma PrepareConfig_outcome cfgPath targets iface monitoringPort interval dscp
    s :
  match fileStage cfgPath with
  | (None, None) =>
      PrepareConfig cfgPath targets iface monitoringPort interval dscp s = None
  | (_, Some e) =>
      ∃ s',
        PrepareConfig cfgPath targets iface monitoringPort interval dscp s
        = Some ((None, Some (Wrap ("reading config from " +:+ quote cfgPath
                                   +:+ ": ") e)), s')
  | (Some base, None) =>
      ∃ s',
        PrepareConfig cfgPath targets iface monitoringPort interval dscp s
        = Some
            (match validation (resolved base targets iface monitoringPort
                                 interval dscp) with
             | Some e => (None, Some (Wrap "validating config: " e))
             | None =>
                 (Some (length (heap s)
                        + if bool_decide (cfgPath ≠ "") then 1 else 0)%nat,
                  None)
             end, s')
  end.
Proof.
  rewrite PrepareConfig_exact.
  destruct (fileStage cfgPath) as [[base|] [e|]]; first [ by eexists | done ].
Qed.

(** X15. A file that is read and decoded without an error, but whose
    decoding sets the pointer to nil, makes [ReadConfig] return the nil
    pointer with the nil error, and makes [PrepareConfig] panic, whatever
    its other arguments: it returns neither a Config nor an error. *)
Theorem PrepareConfig_nil_config_panics cfgPath cData targets iface
    monitoringPort interval dscp s :
  cfgPath ≠ "" →
  ReadFile cfgPath = (cData, None) →
  Unmarshal cData defaults = (None, None) →
  ReadConfig cfgPath s
  = Some ((None, None),
          mkState (heap s ++ [defaults]) (trace s ++ [Read cfgPath]))
  ∧ PrepareConfig cfgPath targets iface monitoringPort interval dscp s = None.
Proof.
  intros Hpath Hread Hdec. split.
  - rewrite ReadConfig_exact. unfold decodeFile, fileObject.
    by rewrite Hread, Hdec.
  - rewrite PrepareConfig_exact. unfold fileStage.
    rewrite bool_decide_eq_true_2 by done. by rewrite Hread, Hdec.
Qed.

(** X16. Unless the file decodes to nil without an error, [PrepareConfig]
    returns, and returns either a pointer to a Config that passes
    [Validate] and no error, or the nil pointer and one error.  When
    reading the file fails, or decoding it, the error wraps that failure
    with the path.  Otherwise the Config built from the defaults/file
    stage and the CLI values is in the object allocated last, which is
    new; the call returns the pointer to it when [Validate] accepts it,
    and else the failure of [Validate] on it, wrapped. *)
Theorem PrepareConfig_result_or_error cfgPath targets iface monitoringPort
    interval dscp s :
  fileStage cfgPath ≠ (None, None) →
  ∃ res s',
    PrepareConfig cfgPath targets iface monitoringPort interval dscp s
    = Some (res, s')
    ∧ ((∃ l, res = (Some l, None) ∧ Validate (Some l) s' = Some (None, s'))
       ∨ (∃ e, res = (None, Some e)))
    ∧ (∀ e, cfgPath ≠ "" → (ReadFile cfgPath).2 = Some e →
            res = (None, Some (Wrap ("reading config from " +:+ quote cfgPath
                                     +:+ ": ") e)))
    ∧ (∀ e, cfgPath ≠ "" → (ReadFile cfgPath).2 = None →
            (Unmarshal (ReadFile cfgPath).1 defaults).2 = Some e →
            res = (None, Some (Wrap ("reading config from " +:+ quote cfgPath
                                     +:+ ": ") e)))
    ∧ (∀ base, fileStage cfgPath = (Some base, None) →
         ∃ l, S l = length (heap s')
              ∧ heap s !! l = None
              ∧ heap s' !! l
                = Some (resolved base targets iface monitoringPort interval
                          dscp)
              ∧ match res with
                | (Some l', None) =>
                    l' = l ∧ Validate (Some l) s' = Some (None, s')
                | (None, Some e') =>
                    ∃ e, Validate (Some l) s' = Some (Some e, s')
                         ∧ e' = Wrap "validating config: " e
                | _ => False
                end).
Proof.
  intros Hnil. rewrite PrepareConfig_exact.
  assert (Hstage : ∀ e,
    cfgPath ≠ "" →
    (ReadFile cfgPath).2 = Some e
    ∨ ((ReadFile cfgPath).2 = None
       ∧ (Unmarshal (ReadFile cfgPath).1 defaults).2 = Some e) →
    (fileStage cfgPath).2 = Some e).
  { intros e Hpath. unfold fileStage. rewrite bool_decide_eq_true_2 by done.
    destruct (ReadFile cfgPath) as [cData [e0|]]; cbn [fst snd].
    - by intros [?|[? _]].
    - intros [?|[_ Hdec]]; [done|].
      by destruct (Unmarshal cData defaults) as [decoded [e0|]]. }
  destruct (fileStage cfgPath) as [[base|] [e0|]]; [| | |done]; cbn [snd] in *.
  1,3: eexists _, _; split; [reflexivity|];
    split; [right; by eexists|];
    split; [intros e Hp He; specialize (Hstage e Hp (or_introl He)); congruence|];
    split; [intros e Hp Hr He;
            specialize (Hstage e Hp (or_intror (conj Hr He))); congruence|];
    by intros base' [=].
  cbv zeta.
  set (c := resolved base targets iface monitoringPort interval dscp).
  set (h := heap s ++ (if bool_decide (cfgPath ≠ "") then [defaults; c]
                       else [c])).
  set (l := (length (heap s)
             + if bool_decide (cfgPath ≠ "") then 1 else 0)%nat).
  assert (Hl : h !! l = Some c).
  { subst h l. rewrite lookup_app_r by lia.
    destruct (bool_decide (cfgPath ≠ "")).
    - by replace (length (heap s) + 1 - length (heap s))%nat with 1%nat by lia.
    - by replace (length (heap s) + 0 - length (heap s))%nat with 0%nat by lia. }
  assert (Hlen : S l = length h).
  { subst h l. rewrite length_app.
    destruct (bool_decide (cfgPath ≠ "")); simpl; lia. }
  assert (Hnew : heap s !! l = None).
  { apply lookup_ge_None_2. subst l. lia. }
  eexists _, _. split; [reflexivity|].
  split.
  { destruct (validation c) as [e|] eqn:Hv; [right; by eexists|].
    left. eexists. split; [reflexivity|].
    erewrite Validate_run by (cbn [heap]; exact Hl). by rewrite Hv. }
  split.
  { intros e Hp He. specialize (Hstage e Hp (or_introl He)). congruence. }
  split.
  { intros e Hp Hr He.
    specialize (Hstage e Hp (or_intror (conj Hr He))). congruence. }
  intros base' [= <-]. exists l. cbn [heap].
  split; [done|]. split; [done|]. split; [done|].
  destruct (validation c) as [e|] eqn:Hv.
  - exists e. split; [|done].
    erewrite Validate_run by (cbn [heap]; exact Hl). by rewrite Hv.
  - split; [done|].
    erewrite Validate_run by (cbn [heap]; exact Hl). by rewrite Hv.
Qed.

(** X5. Without a file, [PrepareConfig] returns a Config exactly when
    there is a target, the interface is given, the monitoring port and
    the DSCP are not negative, and the interval is absent or above the
    default exchange timeout of 100 ms (and the empty filter name is a
    supported filter). *)
Theorem PrepareConfig_no_file_succeeds_iff targets iface monitoringPort
    interval dscp s :
  (∃ l s', PrepareConfig "" targets iface monitoringPort interval dscp s
           = Some ((Some l, None), s'))
  ↔ targets ≠ [] ∧ iface ≠ "" ∧ 0 ≤ monitoringPort ∧ 0 ≤ dscp
    ∧ (interval = 0 ∨ 100 * Millisecond < interval)
    ∧ "" ∈ [FilterNone; FilterMean; FilterMedian].
Proof.
  set (c := resolved defaults targets iface monitoringPort interval dscp).
  assert ((∃ l s', PrepareConfig "" targets iface monitoringPort interval
                     dscp s = Some ((Some l, None), s'))
          ↔ validation c = None) as ->.
  { pose proof (PrepareConfig_outcome "" targets iface monitoringPort
                  interval dscp s) as Hout.
    rewrite fileStage_no_file in Hout. destruct Hout as [s1 ->]. fold c.
    destruct (validation c); split; try done.
    - by intros (l & s' & [=]).
    - intros _. by eexists _, _. }
  rewrite validation_None_iff. unfold otherChecks.
  rewrite MeasurementConfig_Validate_None.
  destruct (resolved_scalars defaults targets iface monitoringPort interval
              dscp) as (Hi & Hm & Hv & Hd).
  fold c in Hi, Hm, Hv, Hd. rewrite Hi, Hm, Hv, Hd.
  assert (Hs : Servers c ≠ ∅ ↔ targets ≠ []).
  { split.
    - intros Hne ->. apply Hne. apply resolved_Servers_empty.
    - apply resolved_Servers_nonempty. }
  rewrite Hs.
  change (Timestamping c) with HWTIMESTAMP.
  change (ExchangeTimeout c) with (100 * Millisecond).
  change (AttemptsTXTS c) with 10. change (TimeoutTXTS c) with (50 * Millisecond).
  change (MetricsAggregationWindow c) with (60 * Second).
  change (Measurement c) with (mkMeasurementConfig 0 "" false 0).
  cbn [PathDelayFilterLength PathDelayFilter defaults Iface MonitoringPort
       Interval DSCP].
  assert (HWTIMESTAMP ∈ [HWTIMESTAMP; SWTIMESTAMP]) by apply list_elem_of_here.
  unfold Second, Millisecond, Microsecond, Nanosecond.
  repeat case_decide; intuition lia.
Qed.

(** X6. An interval given on the command line that is not above the
    exchange timeout left by the defaults/file stage makes [PrepareConfig]
    fail in validation: the exchange timeout has no CLI override. *)
Theorem PrepareConfig_interval_not_above_timeout cfgPath targets iface
    monitoringPort interval dscp s base :
  fileStage cfgPath = (Some base, None) →
  interval ≠ 0 → interval ≤ ExchangeTimeout base →
  ∃ e s',
    PrepareConfig cfgPath targets iface monitoringPort interval dscp s
    = Some ((None, Some (Wrap "validating config: " e)), s').
Proof.
  intros Hstage Hnz Hle.
  pose proof (PrepareConfig_outcome cfgPath targets iface monitoringPort
                interval dscp s) as Hout.
  rewrite Hstage in Hout. destruct Hout as [s' ->].
  destruct (validation _) as [e|] eqn:Hv; [by eexists _, _|].
  apply validation_None_iff in Hv as (_ & _ & Hlt).
  destruct (resolved_scalars base targets iface monitoringPort interval dscp)
    as (_ & _ & Hv & _).
  rewrite Hv, decide_False in Hlt by done.
  change (ExchangeTimeout (resolved _ _ _ _ _ _)) with (ExchangeTimeout base)
    in Hlt. lia.
Qed.

(** X7. A negative monitoring port, DSCP or interval on the command line
    never gives a Config: the value is not zero, so it is taken over, and
    validation refuses it.  The call ends in an error, unless the file
    decodes to nil without an error: then it panics. *)
Theorem PrepareConfig_negative_rejected cfgPath targets iface monitoringPort
    interval dscp s :
  monitoringPort < 0 ∨ dscp < 0 ∨ interval < 0 →
  (∀ l s',
     PrepareConfig cfgPath targets iface monitoringPort interval dscp s
     ≠ Some ((Some l, None), s'))
  ∧ match fileStage cfgPath with
    | (None, None) =>
        PrepareConfig cfgPath targets iface monitoringPort interval dscp s
        = None
    | _ =>
        ∃ e s',
          PrepareConfig cfgPath targets iface monitoringPort interval dscp s
          = Some ((None, Some e), s')
    end.
Proof.
  intros Hneg.
  assert (Hrefused : ∀ base,
    validation (resolved base targets iface monitoringPort interval dscp)
    ≠ None).
  { intros base Hv.
    apply validation_None_iff in Hv as ((Hi & _ & _ & _ & Hm & Hd & _) & _).
    destruct (resolved_scalars base targets iface monitoringPort interval
                dscp) as (_ & Hm' & Hi' & Hd').
    rewrite Hm' in Hm. rewrite Hi' in Hi. rewrite Hd' in Hd.
    repeat case_decide; lia. }
  pose proof (PrepareConfig_outcome cfgPath targets iface monitoringPort
                interval dscp s) as Hout.
  destruct (fileStage cfgPath) as [[base|] [e|]].
  - destruct Hout as [s1 ->]. split; [done|]. by eexists _, _.
  - destruct Hout as [s1 ->]. specialize (Hrefused base).
    destruct (validation _) as [e|]; [|done].
    split; [done|]. by eexists _, _.
  - destruct Hout as [s1 ->]. split; [done|]. by eexists _, _.
  - by rewrite Hout.
Qed.

(** X8. The returned Config has at least one server, at most as many as
    there are targets when targets are given, and at most as many as the
    defaults/file stage gave when none is. *)
Theorem PrepareConfig_servers_bounds cfgPath targets iface monitoringPort
    interval dscp s l s' :
  PrepareConfig cfgPath targets iface monitoringPort interval dscp s
  = Some ((Some l, None), s') →
  ∃ base c,
    fileStage cfgPath = (Some base, None) ∧ heap s' !! l = Some c
    ∧ (1 ≤ size (Servers c))%nat
    ∧ (targets ≠ [] → (size (Servers c) ≤ length targets)%nat)
    ∧ (targets = [] → (size (Servers c) ≤ size (Servers base))%nat).
Proof.
  intros (base & Hstage & Hl & Hv)%PrepareConfig_returns.
  eexists base, _. split; [done|]. split; [done|].
  apply validation_None_iff in Hv as ((_ & _ & _ & _ & _ & _ & Hs & _) & _).
  split; [|split].
  - apply map_size_non_empty_iff in Hs. lia.
  - intros Hne. unfold resolved. fields.
    rewrite bool_decide_eq_true_2 by (destruct targets; [done|simpl; lia]).
    apply fromTargets_size.
  - intros ->. unfold resolved. fields. cbn [length].
    rewrite bool_decide_eq_false_2 by lia.
    etrans; [apply fromEntries_size|].
    rewrite map_size_empty, rangeOrder_perm, length_map_to_list. lia.
Qed.

(** X9. The Config [PrepareConfig] returns is a new object: its pointer
    pointed to nothing before the call, and the objects that existed are
    unchanged.  So a later call returns another pointer and leaves the
    Config of the earlier call as it was. *)
Theorem PrepareConfig_fresh_object cfgPath targets iface monitoringPort
    interval dscp s l s' :
  PrepareConfig cfgPath targets iface monitoringPort interval dscp s
  = Some ((Some l, None), s') →
  heap s !! l = None
  ∧ (∀ l0 c0, heap s !! l0 = Some c0 → heap s' !! l0 = Some c0)
  ∧ ∀ cfgPath2 targets2 iface2 monitoringPort2 interval2 dscp2 l2 s2,
      PrepareConfig cfgPath2 targets2 iface2 monitoringPort2 interval2 dscp2
        s' = Some ((Some l2, None), s2) →
      l2 ≠ l ∧ heap s2 !! l = heap s' !! l.
Proof.
  assert (Hgen : ∀ p t i m v d st r st',
    PrepareConfig p t i m v d st = Some (r, st') →
    (∃ ext, heap st' = heap st ++ ext)
    ∧ ∀ k, r.1 = Some k →
           (length (heap st) ≤ k)%nat ∧ (k < length (heap st'))%nat).
  { intros p t i m v d st r st'. rewrite PrepareConfig_exact.
    destruct (fileStage p) as [[base|] [e|]]; [| | |done];
      intros [= <- <-]; cbn [heap fst].
    - split; [by eexists|]. done.
    - split; [by eexists|]. intros k.
      destruct (validation _); [done|]. intros [= <-].
      rewrite length_app. destruct (bool_decide (p ≠ "")); simpl; lia.
    - split; [by eexists|]. done. }
  intros Hrun. destruct (Hgen _ _ _ _ _ _ _ _ _ Hrun) as ([ext Hext] & Hl).
  destruct (Hl l eq_refl) as [Hge Hlt].
  split; [by apply lookup_ge_None_2|].
  split; [intros l0 c0 Hl0; rewrite Hext; by apply lookup_app_l_Some|].
  intros p2 t2 i2 m2 v2 d2 l2 s2 Hrun2.
  destruct (Hgen _ _ _ _ _ _ _ _ _ Hrun2) as ([ext2 Hext2] & Hl2).
  destruct (Hl2 l2 eq_refl) as [Hge2 Hlt2].
  split; [lia|]. rewrite Hext2. by rewrite lookup_app_l.
Qed.

End Extras2.

Section Extras3.
Context `{Consts} `{Runtime}.

Lemma targets_nonempty_length (targets : list string) :
  bool_decide (0 < length targets)%nat = bool_decide (targets ≠ []).
Proof.
  apply bool_decide_ext. destruct targets; simpl; split; (done || lia).
Qed.

Lemma serversEvents_projections base targets :
  hostsLookedUp (serversEvents base targets)
  = filter (λ a, ParseIP a = false)
      (if bool_decide (targets ≠ []) then targets
       else (rangeOrder (Servers base)).*1)
  ∧ warningsLogged (serversEvents base targets)
    = (if bool_decide (targets ≠ [])
       then ["overriding targets from CLI flag"] else [])
  ∧ filesRead (serversEvents base targets) = []
  ∧ configsLogged (serversEvents base targets) = [].
Proof.
  unfold serversEvents. rewrite targets_nonempty_length.
  destruct (bool_decide (targets ≠ [])).
  - destruct (lookups_hosts targets) as (Hh & Hf & Hc & Hw).
    repeat split; [done| |done..].
    unfold warningsLogged in *. cbn [omap list_omap overrideWarning].
    by rewrite Hw.
  - by destruct (lookups_hosts (rangeOrder (Servers base)).*1)
      as (Hh & Hf & Hc & Hw).
Qed.

Lemma scalarWarnings_projections base iface monitoringPort interval dscp :
  hostsLookedUp (scalarWarnings base iface monitoringPort interval dscp) = []
  ∧ filesRead (scalarWarnings base iface monitoringPort interval dscp) = []
  ∧ configsLogged (scalarWarnings base iface monitoringPort interval dscp) = []
  ∧ warningsLogged (scalarWarnings base iface monitoringPort interval dscp)
    = (if bool_decide (iface ≠ "") && bool_decide (iface ≠ Iface base)
       then ["overriding iface from CLI flag"] else [])
      ++ (if bool_decide (monitoringPort ≠ 0)
             && bool_decide (monitoringPort ≠ MonitoringPort base)
          then ["overriding monitoringPort from CLI flag"] else [])
      ++ (if bool_decide (interval ≠ 0)
             && bool_decide (interval ≠ Interval base)
          then ["overriding interval from CLI flag"] else [])
      ++ (if bool_decide (dscp ≠ 0) && bool_decide (dscp ≠ DSCP base)
          then ["overriding dscp from CLI flag"] else []).
Proof.
  unfold scalarWarnings.
  destruct (bool_decide (iface ≠ "") && bool_decide (iface ≠ Iface base)),
    (bool_decide (monitoringPort ≠ 0)
     && bool_decide (monitoringPort ≠ MonitoringPort base)),
    (bool_decide (interval ≠ 0) && bool_decide (interval ≠ Interval base)),
    (bool_decide (dscp ≠ 0) && bool_decide (dscp ≠ DSCP base));
    done.
Qed.

(** X10. The warnings of a call are, in this order, one for the targets
    when targets are given, and one for each of the interface, the
    monitoring port, the interval and the DSCP whose CLI value is not the
    zero value and differs from the value after the defaults/file stage.
    A call that fails on the file logs no warning.  After a file that
    decodes to nil without an error the call panics. *)
Theorem PrepareConfig_warnings cfgPath targets iface monitoringPort interval
    dscp s :
  match fileStage cfgPath with
  | (None, None) =>
      PrepareConfig cfgPath targets iface monitoringPort interval dscp s = None
  | (_, Some _) =>
      ∃ res s' tr,
        PrepareConfig cfgPath targets iface monitoringPort interval dscp s
        = Some (res, s')
        ∧ trace s' = trace s ++ tr
        ∧ warningsLogged tr = []
  | (Some base, None) =>
      ∃ res s' tr,
        PrepareConfig cfgPath targets iface monitoringPort interval dscp s
        = Some (res, s')
        ∧ trace s' = trace s ++ tr
        ∧ warningsLogged tr
          = (if bool_decide (targets ≠ [])
             then ["overriding targets from CLI flag"] else [])
            ++ (if bool_decide (iface ≠ "") && bool_decide (iface ≠ Iface base)
                then ["overriding iface from CLI flag"] else [])
            ++ (if bool_decide (monitoringPort ≠ 0)
                   && bool_decide (monitoringPort ≠ MonitoringPort base)
                then ["overriding monitoringPort from CLI flag"] else [])
            ++ (if bool_decide (interval ≠ 0)
                   && bool_decide (interval ≠ Interval base)
                then ["overriding interval from CLI flag"] else [])
            ++ (if bool_decide (dscp ≠ 0) && bool_decide (dscp ≠ DSCP base)
                then ["overriding dscp from CLI flag"] else [])
  end.
Proof.
  rewrite PrepareConfig_exact.
  destruct (fileStage cfgPath) as [[base|] [e|]]; [| | |done];
    eexists _, _, _; (split; [reflexivity|]); (split; [reflexivity|]);
    [done| |done].
  rewrite !warningsLogged_app.
  destruct (serversEvents_projections base targets) as (_ & -> & _).
  destruct (scalarWarnings_projections base iface monitoringPort interval dscp)
    as (_ & _ & _ & ->).
  assert (Hw : ∀ o : option error,
    warningsLogged
      match o with
      | Some _ => []
      | None => [Debug (resolved base targets iface monitoringPort interval
                          dscp)]
      end = []) by by intros [].
  rewrite Hw, app_nil_r. by destruct (bool_decide (cfgPath ≠ "")).
Qed.

(** X11. The hosts a call looks up are, in their order, the targets that
    do not parse as a literal address when targets are given, and the keys
    of the server mapping of the defaults/file stage that do not parse as
    one when none is; a call that fails on the file looks up nothing.
    After a file that decodes to nil without an error the call panics. *)
Theorem PrepareConfig_lookups cfgPath targets iface monitoringPort interval
    dscp s :
  match fileStage cfgPath with
  | (None, None) =>
      PrepareConfig cfgPath targets iface monitoringPort interval dscp s = None
  | (_, Some _) =>
      ∃ res s' tr,
        PrepareConfig cfgPath targets iface monitoringPort interval dscp s
        = Some (res, s')
        ∧ trace s' = trace s ++ tr
        ∧ hostsLookedUp tr = []
  | (Some base, None) =>
      ∃ res s' tr,
        PrepareConfig cfgPath targets iface monitoringPort interval dscp s
        = Some (res, s')
        ∧ trace s' = trace s ++ tr
        ∧ hostsLookedUp tr
          = filter (λ a, ParseIP a = false)
              (if bool_decide (targets ≠ []) then targets
               else (rangeOrder (Servers base)).*1)
  end.
Proof.
  rewrite PrepareConfig_exact.
  destruct (fileStage cfgPath) as [[base|] [e|]]; [| | |done];
    eexists _, _, _; (split; [reflexivity|]); (split; [reflexivity|]);
    [done| |done].
  rewrite !hostsLookedUp_app.
  destruct (serversEvents_projections base targets) as (-> & _).
  destruct (scalarWarnings_projections base iface monitoringPort interval dscp)
    as (-> & _).
  assert (Hw : ∀ o : option error,
    hostsLookedUp
      match o with
      | Some _ => []
      | None => [Debug (resolved base targets iface monitoringPort interval
                          dscp)]
      end = []) by by intros [].
  rewrite Hw, !app_nil_r. by destruct (bool_decide (cfgPath ≠ "")).
Qed.

(** X12. A call that returns reads the file once when a path is given and
    reads no file when the path is empty.  When reading or decoding fails,
    reading the file is all the call does: nothing is looked up or logged.
    After a file that decodes to nil without an error the call panics. *)
Theorem PrepareConfig_file_read cfgPath targets iface monitoringPort interval
    dscp s :
  match fileStage cfgPath with
  | (None, None) =>
      PrepareConfig cfgPath targets iface monitoringPort interval dscp s = None
  | (_, err) =>
      ∃ res s' tr,
        PrepareConfig cfgPath targets iface monitoringPort interval dscp s
        = Some (res, s')
        ∧ trace s' = trace s ++ tr
        ∧ filesRead tr = (if bool_decide (cfgPath ≠ "") then [cfgPath] else [])
        ∧ (is_Some err → tr = [Read cfgPath])
  end.
Proof.
  rewrite PrepareConfig_exact, fileStage_decodeFile.
  destruct (bool_decide (cfgPath ≠ "")) eqn:Hpath.
  - destruct (decodeFile cfgPath) as [[base|] [e|]]; [| | |done];
      eexists _, _, _; (split; [reflexivity|]); (split; [reflexivity|]);
      [done| |done].
    split; [|by intros [? [=]]].
    rewrite !filesRead_app.
    destruct (serversEvents_projections base targets) as (_ & _ & -> & _).
    destruct (scalarWarnings_projections base iface monitoringPort interval
                dscp) as (_ & -> & _).
    by destruct (validation _).
  - cbv beta iota.
    eexists _, _, _. split; [reflexivity|]. split; [reflexivity|].
    split; [|by intros [? [=]]].
    rewrite !filesRead_app.
    destruct (serversEvents_projections defaults targets) as (_ & _ & -> & _).
    destruct (scalarWarnings_projections defaults iface monitoringPort
                interval dscp) as (_ & -> & _).
    by destruct (validation _).
Qed.

(** X13. The Config is logged exactly when it is returned: a call that
    returns a Config logs that Config, once and as its last event, and a
    call that returns an error logs no Config.  After a file that decodes
    to nil without an error the call panics. *)
Theorem PrepareConfig_logs_result cfgPath targets iface monitoringPort
    interval dscp s :
  match fileStage cfgPath with
  | (None, None) =>
      PrepareConfig cfgPath targets iface monitoringPort interval dscp s = None
  | _ =>
      ∃ res s' tr,
        PrepareConfig cfgPath targets iface monitoringPort interval dscp s
        = Some (res, s')
        ∧ trace s' = trace s ++ tr
        ∧ match res.1 with
          | Some l =>
              ∃ c, heap s' !! l = Some c ∧ configsLogged tr = [c]
                   ∧ last tr = Some (Debug c)
          | None => configsLogged tr = []
          end
  end.
Proof.
  rewrite PrepareConfig_exact.
  destruct (fileStage cfgPath) as [[base|] [e|]]; [| | |done];
    eexists _, _, _; (split; [reflexivity|]); (split; [reflexivity|]);
    [done| |done].
  cbv zeta.
  rewrite !configsLogged_app.
  destruct (serversEvents_projections base targets) as (_ & _ & _ & ->).
  destruct (scalarWarnings_projections base iface monitoringPort interval dscp)
    as (_ & _ & -> & _).
  destruct (validation _) as [e|]; cbn [fst heap].
  - by destruct (bool_decide (cfgPath ≠ "")).
  - eexists. split; [|split].
    + destruct (bool_decide (cfgPath ≠ "")).
      * rewrite (lookup_app_r (heap s)) by lia.
        by replace (length (heap s) + 1 - length (heap s))%nat with 1%nat
          by lia.
      * rewrite Nat.add_0_r. by apply list_lookup_middle.
    + by destruct (bool_decide (cfgPath ≠ "")).
    + rewrite !app_assoc. apply last_snoc.
Qed.

End Extras3.

Section Extras4.
Context `{Consts} `{Runtime}.

Lemma validation_no_servers (c : Config) :
  0 < Interval c → 0 < AttemptsTXTS c → 0 < TimeoutTXTS c →
  0 < MetricsAggregationWindow c → 0 ≤ MonitoringPort c → 0 ≤ DSCP c →
  0 < ExchangeTimeout c → ExchangeTimeout c < Interval c →
  Servers c = ∅ →
  validation c = Some (New "at least one server must be specified").
Proof.
  unfold validation, Validate, mbind, M_bind, bind, load, ret.
  cbn [heap lookup list_lookup].
  destruct c as [bi bt bm bv be bd bf bs bme bw ba bo br]. fields.
  intros ? ? ? ? ? ? ? ? ->.
  rewrite !bool_decide_eq_false_2 by lia. cbn [orb].
  by rewrite bool_decide_eq_true_2 by apply map_size_empty.
Qed.

(** X14. Without a file and without targets there is no server, and
    [PrepareConfig] fails with the failure of the server check, whatever
    the interface is, when the other CLI values are acceptable. *)
Theorem PrepareConfig_no_servers iface monitoringPort interval dscp s :
  0 ≤ monitoringPort → 0 ≤ dscp →
  interval = 0 ∨ 100 * Millisecond < interval →
  ∃ s',
    PrepareConfig "" [] iface monitoringPort interval dscp s
    = Some ((None,
             Some (Wrap "validating config: "
                     (New "at least one server must be specified"))), s').
Proof.
  intros Hm Hd Hv.
  pose proof (PrepareConfig_outcome "" [] iface monitoringPort interval dscp
                s) as Hout.
  rewrite fileStage_no_file in Hout. destruct Hout as [s' ->]. exists s'.
  destruct (resolved_scalars defaults [] iface monitoringPort interval dscp)
    as (_ & Hm' & Hv' & Hd').
  rewrite validation_no_servers; [done|..];
    rewrite ?Hm', ?Hv', ?Hd';
    try apply resolved_Servers_empty;
    change (ExchangeTimeout (resolved _ _ _ _ _ _)) with (100 * Millisecond);
    cbn [defaults Interval MonitoringPort DSCP];
    unfold Second, Millisecond, Microsecond, Nanosecond in *;
    repeat case_decide; first [ lia | done ].
Qed.

End Extras4.

(** * Runs in the sample environment *)

Section Samples.
#[local] Existing Instance sampleConsts.
#[local] Existing Instance sampleRuntime.

(** The sample Config passes every check besides those on the exchange
    timeout. *)
Lemma sampleConfig_otherChecks : otherChecks sampleConfig.
Proof.
  unfold otherChecks. repeat split; try (by vm_compute).
  apply list_elem_of_here.
Defined.

(** C1, C10: the file sets the interface [eth1] and DSCP 35; the CLI gives
    the interface [eth0], no monitoring port, the interval 2 s and the
    DSCP 35. *)
Lemma PrepareConfig_scalar_overrides_witness :
  ∃ l s',
    PrepareConfig "/etc/sptp.yaml" ["192.0.2.1"] "eth0" 0 (2 * Second) 35
      emptyState = Some ((Some l, None), s')
    ∧ ∃ base c,
        fileStage "/etc/sptp.yaml" = (Some base, None) ∧ heap s' !! l = Some c
        ∧ ("eth0" ≠ "" → "eth0" ≠ Iface base → Iface c = "eth0")
        ∧ ("eth0" = "" ∨ "eth0" = Iface base → Iface c = Iface base)
        ∧ (0 ≠ 0 → 0 ≠ MonitoringPort base → MonitoringPort c = 0)
        ∧ (0 = 0 ∨ 0 = MonitoringPort base →
           MonitoringPort c = MonitoringPort base)
        ∧ (2 * Second ≠ 0 → 2 * Second ≠ Interval base →
           Interval c = 2 * Second)
        ∧ (2 * Second = 0 ∨ 2 * Second = Interval base →
           Interval c = Interval base)
        ∧ (35 ≠ 0 → 35 ≠ DSCP base → DSCP c = 35)
        ∧ (35 = 0 ∨ 35 = DSCP base → DSCP c = DSCP base).
Proof.
  eexists _, _. split; [vm_compute; reflexivity|].
  eapply (PrepareConfig_scalar_overrides "/etc/sptp.yaml" ["192.0.2.1"]
            "eth0" 0 (2 * Second) 35 emptyState).
  vm_compute. reflexivity.
Defined.

Lemma PrepareConfig_frame_witness :
  ∃ l s',
    PrepareConfig "/etc/sptp.yaml" ["192.0.2.1"] "eth0" 0 (2 * Second) 35
      emptyState = Some ((Some l, None), s')
    ∧ ∃ base c,
        fileStage "/etc/sptp.yaml" = (Some base, None) ∧ heap s' !! l = Some c
        ∧ Timestamping c = Timestamping base
        ∧ ExchangeTimeout c = ExchangeTimeout base
        ∧ FirstStepThreshold c = FirstStepThreshold base
        ∧ Measurement c = Measurement base
        ∧ MetricsAggregationWindow c = MetricsAggregationWindow base
        ∧ AttemptsTXTS c = AttemptsTXTS base
        ∧ TimeoutTXTS c = TimeoutTXTS base
        ∧ FreeRunning c = FreeRunning base.
Proof.
  eexists _, _. split; [vm_compute; reflexivity|].
  eapply (PrepareConfig_frame "/etc/sptp.yaml" ["192.0.2.1"]
            "eth0" 0 (2 * Second) 35 emptyState).
  vm_compute. reflexivity.
Defined.

(** C3: three objects, with the exchange timeout 0, equal to the interval,
    and one nanosecond below it. *)
Lemma Validate_exchange_timeout_boundary_witness :
  let s := mkState [set_ExchangeTimeout 0 sampleConfig;
                    set_ExchangeTimeout Second sampleConfig;
                    sampleConfig] [] in
  (∃ e, Validate (Some 0%nat) s = Some (Some e, s))
  ∧ (∃ e, Validate (Some 1%nat) s = Some (Some e, s))
  ∧ Validate (Some 2%nat) s = Some (None, s).
Proof.
  intros s.
  destruct (Validate_exchange_timeout_boundary 0
              (set_ExchangeTimeout 0 sampleConfig) s eq_refl)
    as (_ & Hzero & _).
  destruct (Validate_exchange_timeout_boundary 1
              (set_ExchangeTimeout Second sampleConfig) s eq_refl)
    as (_ & _ & Hequal & _).
  destruct (Validate_exchange_timeout_boundary 2 sampleConfig s eq_refl)
    as (_ & _ & _ & Hother).
  destruct (Hother sampleConfig_otherChecks) as (_ & _ & Hbelow).
  split; [apply Hzero; reflexivity|].
  split; [apply Hequal; reflexivity|].
  apply Hbelow; reflexivity.
Defined.

(** C4: an object whose interval and interface are both invalid fails on
    the interval, and with the failure of the interval alone. *)
Lemma Validate_fail_fast_witness :
  let c := set_Iface "" (set_Interval 0 sampleConfig) in
  ∃ verr,
    Validate (Some 0%nat) (mkState [c] []) = Some (verr, mkState [c] [])
    ∧ verr = match firstViolated c with
             | None => None
             | Some (i, _) => failure i c
             end
    ∧ match firstViolated c with
      | None => verr = None
      | Some (_, (_, word)) => ∃ e, verr = Some e ∧ names word e
      end
    ∧ ∀ l' c' verr',
        heap (mkState [c] []) !! l' = Some c' →
        Validate (Some l') (mkState [c] []) = Some (verr', mkState [c] []) →
        fst <$> firstViolated c ≠ fst <$> firstViolated c' →
        Error <$> verr ≠ Error <$> verr'.
Proof.
  apply (Validate_fail_fast 0 (set_Iface "" (set_Interval 0 sampleConfig))).
  reflexivity.
Defined.

(** C7.  The claim fails on a readable file that holds the null document.
    The decoder sets the pointer it is given to nil and reports no error,
    so [ReadConfig] returns the nil pointer together with the nil error,
    and [PrepareConfig] goes on past its error test with a nil Config: it
    returns neither a Config nor an error, but panics at its first access
    to the Config, at line 156 when targets are given and at line 163 when
    none is. *)
Theorem PrepareConfig_null_document_panics :
  ReadFile "/etc/null.yaml" = ("null", None)
  ∧ Unmarshal "null" defaults = (None, None)
  ∧ ReadConfig "/etc/null.yaml" emptyState
    = Some ((None, None), mkState [defaults] [Read "/etc/null.yaml"])
  ∧ PrepareConfig "/etc/null.yaml" ["192.0.2.1"] "eth0" 0 0 0 emptyState = None
  ∧ PrepareConfig "/etc/null.yaml" [] "eth0" 0 0 0 emptyState = None
  ∧ ¬ (∃ res s',
         PrepareConfig "/etc/null.yaml" ["192.0.2.1"] "eth0" 0 0 0 emptyState
         = Some (res, s')).
Proof.
  split; [reflexivity|]. split; [reflexivity|].
  split; [vm_compute; reflexivity|].
  split; [vm_compute; reflexivity|].
  split; [vm_compute; reflexivity|].
  intros (res & s' & Hrun). vm_compute in Hrun. discriminate.
Qed.

(** C9: in the sample environment [192.0.2.1] parses as an address and the
    empty filter name is [FilterNone]. *)
Lemma PrepareConfig_scenario_witness :
  ParseIP "192.0.2.1" = true
  ∧ "" ∈ [FilterNone; FilterMean; FilterMedian]
  ∧ ∃ l s' c,
      PrepareConfig "" ["192.0.2.1"] "eth0" 0 0 0 emptyState
      = Some ((Some l, None), s')
      ∧ heap s' !! l = Some c
      ∧ Servers c = {["192.0.2.1" := 0]}
      ∧ Iface c = "eth0"
      ∧ Interval c = 1 * Second
      ∧ ExchangeTimeout c = 100 * Millisecond
      ∧ Validate (Some l) s' = Some (None, s').
Proof.
  split; [reflexivity|]. split; [apply list_elem_of_here|].
  apply (PrepareConfig_scenario emptyState); [reflexivity|].
  apply list_elem_of_here.
Defined.

(** C2: two names with different addresses. *)
Lemma PrepareConfig_targets_override_witness :
  ∃ l s' c,
    PrepareConfig "/etc/sptp.yaml" ["host-a"; "host-b"] "" 0 0 0 emptyState
    = Some ((Some l, None), s')
    ∧ heap s' !! l = Some c
    ∧ eachAtItsPosition ["host-a"; "host-b"] (Servers c)
    ∧ Servers c = {["10.0.0.1" := 0; "10.0.0.2" := 1]}.
Proof.
  assert (∃ s', PrepareConfig "/etc/sptp.yaml" ["host-a"; "host-b"] "" 0 0 0
                  emptyState = Some ((Some 1%nat, None), s')) as [s' Hrun].
  { eexists. vm_compute. reflexivity. }
  destruct (PrepareConfig_targets_override "/etc/sptp.yaml"
              ["host-a"; "host-b"] "" 0 0 0 emptyState 1%nat s')
    as (c & Hc & _ & Hpos & Htwo); [done|exact Hrun|].
  exists 1%nat, s', c. split; [exact Hrun|]. split; [exact Hc|].
  split.
  - apply Hpos. apply (bool_decide_unpack _). vm_compute. exact I.
  - apply (Htwo "host-a" "host-b"); [reflexivity|].
    vm_compute. discriminate.
Defined.

(** C6: the two names of [/etc/sptp.yaml] have different addresses. *)
Lemma PrepareConfig_renames_servers_witness :
  ∃ l s' base c,
    PrepareConfig "/etc/sptp.yaml" [] "" 0 0 0 emptyState
    = Some ((Some l, None), s')
    ∧ fileStage "/etc/sptp.yaml" = (Some base, None)
    ∧ heap s' !! l = Some c
    ∧ distinctAddresses (Servers base)
    ∧ keepsPriorities (Servers base) (Servers c).
Proof.
  assert (∃ s', PrepareConfig "/etc/sptp.yaml" [] "" 0 0 0 emptyState
                = Some ((Some 1%nat, None), s')) as [s' Hrun].
  { eexists. vm_compute. reflexivity. }
  destruct (PrepareConfig_renames_servers "/etc/sptp.yaml" "" 0 0 0
              emptyState 1%nat s' Hrun)
    as (base & c & Hstage & Hc & _ & _ & Hkeeps).
  assert (Hdistinct : distinctAddresses (Servers base)).
  { vm_compute in Hstage. injection Hstage as <-.
    apply (bool_decide_unpack _). vm_compute. exact I. }
  exists 1%nat, s', base, c.
  split; [exact Hrun|]. split; [exact Hstage|]. split; [exact Hc|].
  split; [exact Hdistinct|]. exact (Hkeeps Hdistinct).
Defined.

(** C2 as stated fails: two names of one host leave a single entry, which
    holds the second position; and so does a target given twice. *)
Lemma targets_override_counterexample :
  (∃ l s' c,
     PrepareConfig "" ["ntp-a.example"; "ntp-b.example"] "eth0" 0 0 0
       emptyState = Some ((Some l, None), s')
     ∧ heap s' !! l = Some c
     ∧ Servers c = {["192.0.2.1" := 1]}
     ∧ ¬ eachAtItsPosition ["ntp-a.example"; "ntp-b.example"] (Servers c))
  ∧ (∃ l s' c,
       PrepareConfig "" ["10.0.0.1"; "10.0.0.1"] "eth0" 0 0 0 emptyState
       = Some ((Some l, None), s')
       ∧ heap s' !! l = Some c
       ∧ Servers c = {["10.0.0.1" := 1]}
       ∧ ¬ eachAtItsPosition ["10.0.0.1"; "10.0.0.1"] (Servers c)).
Proof.
  split.
  - eexists _, _, _. split; [vm_compute; reflexivity|].
    split; [vm_compute; reflexivity|]. split; [vm_compute; reflexivity|].
    intros Hpos. specialize (Hpos 0%nat "ntp-a.example" eq_refl).
    vm_compute in Hpos. discriminate.
  - eexists _, _, _. split; [vm_compute; reflexivity|].
    split; [vm_compute; reflexivity|]. split; [vm_compute; reflexivity|].
    intros Hpos. specialize (Hpos 0%nat "10.0.0.1" eq_refl).
    vm_compute in Hpos. discriminate.
Qed.

(** C6 as stated fails: the file [/etc/aliases.yaml] lists two names of one
    host; of its two entries one remains. *)
Lemma renames_servers_counterexample :
  ∃ l s' base c,
    PrepareConfig "/etc/aliases.yaml" [] "" 0 0 0 emptyState
    = Some ((Some l, None), s')
    ∧ fileStage "/etc/aliases.yaml" = (Some base, None)
    ∧ heap s' !! l = Some c
    ∧ size (Servers base) = 2%nat
    ∧ size (Servers c) = 1%nat
    ∧ ¬ keepsPriorities (Servers base) (Servers c).
Proof.
  eexists _, _, _, _. split; [vm_compute; reflexivity|].
  split; [vm_compute; reflexivity|]. split; [vm_compute; reflexivity|].
  split; [vm_compute; reflexivity|]. split; [vm_compute; reflexivity|].
  intros (_ & _ & Hsize). vm_compute in Hsize. discriminate.
Qed.

End Samples.

(** * Further runs in the sample environment *)

Section MoreSamples.
#[local] Existing Instance sampleConsts.
#[local] Existing Instance sampleRuntime.

(** X3: the sample Config satisfies every constraint. *)
Lemma Validate_passes_iff_witness :
  let s := mkState [sampleConfig] [] in
  Validate (Some 0%nat) s = Some (None, s) ↔
    0 < Interval sampleConfig ∧ 0 < AttemptsTXTS sampleConfig
    ∧ 0 < TimeoutTXTS sampleConfig
    ∧ 0 < MetricsAggregationWindow sampleConfig
    ∧ 0 ≤ MonitoringPort sampleConfig ∧ 0 ≤ DSCP sampleConfig
    ∧ 0 < ExchangeTimeout sampleConfig
    ∧ ExchangeTimeout sampleConfig < Interval sampleConfig
    ∧ Servers sampleConfig ≠ ∅
    ∧ Timestamping sampleConfig ∈ [HWTIMESTAMP; SWTIMESTAMP]
    ∧ Iface sampleConfig ≠ ""
    ∧ 0 ≤ PathDelayFilterLength (Measurement sampleConfig)
    ∧ PathDelayFilter (Measurement sampleConfig)
      ∈ [FilterNone; FilterMean; FilterMedian].
Proof.
  apply (Validate_passes_iff 0 sampleConfig (mkState [sampleConfig] [])).
  reflexivity.
Defined.

(** X4: one server and the interface [eth0]. *)
Lemma DefaultConfig_valid_once_completed_witness :
  (∃ s', (p ← DefaultConfig; Validate p) emptyState
         = Some (Some (New "at least one server must be specified"), s'))
  ∧ (∃ s', (p ← DefaultConfig;
            update p (set_Servers (<["192.0.2.1" := 0]> ∅));;
            update p (set_Iface "eth0");;
            Validate p) emptyState = Some (None, s')).
Proof.
  apply (DefaultConfig_valid_once_completed (<["192.0.2.1" := 0]> ∅) "eth0"
           emptyState).
  - apply insert_non_empty.
  - discriminate.
  - apply list_elem_of_here.
Defined.

(** X6: an interval of 50 ms against the default exchange timeout. *)
Lemma PrepareConfig_interval_not_above_timeout_witness :
  ∃ e s',
    PrepareConfig "" ["192.0.2.1"] "eth0" 0 (50 * Millisecond) 0 emptyState
    = Some ((None, Some (Wrap "validating config: " e)), s').
Proof.
  apply (PrepareConfig_interval_not_above_timeout "" ["192.0.2.1"] "eth0" 0
           (50 * Millisecond) 0 emptyState defaults).
  - reflexivity.
  - discriminate.
  - discriminate.
Defined.

(** X7: the DSCP -1 over the sample file. *)
Lemma PrepareConfig_negative_rejected_witness :
  (∀ l s',
     PrepareConfig "/etc/sptp.yaml" ["192.0.2.1"] "eth0" 0 0 (-1) emptyState
     ≠ Some ((Some l, None), s'))
  ∧ ∃ e s',
      PrepareConfig "/etc/sptp.yaml" ["192.0.2.1"] "eth0" 0 0 (-1) emptyState
      = Some ((None, Some e), s').
Proof.
  destruct (PrepareConfig_negative_rejected "/etc/sptp.yaml" ["192.0.2.1"]
              "eth0" 0 0 (-1) emptyState) as [Hnone Hout].
  { right. left. reflexivity. }
  split; [exact Hnone|]. exact Hout.
Defined.

(** X15: the file [/etc/null.yaml] holds the null document. *)
Lemma PrepareConfig_nil_config_panics_witness :
  ReadConfig "/etc/null.yaml" emptyState
  = Some ((None, None), mkState [defaults] [Read "/etc/null.yaml"])
  ∧ PrepareConfig "/etc/null.yaml" ["host-a"; "host-b"] "" 0 0 0 emptyState
    = None.
Proof.
  apply (PrepareConfig_nil_config_panics "/etc/null.yaml" "null"
           ["host-a"; "host-b"] "" 0 0 0 emptyState).
  - discriminate.
  - reflexivity.
  - reflexivity.
Defined.

(** X16: the file [/etc/broken.yaml] does not decode. *)
Lemma PrepareConfig_result_or_error_witness :
  ∃ res s',
    PrepareConfig "/etc/broken.yaml" ["192.0.2.1"] "eth0" 0 0 0 emptyState
    = Some (res, s')
    ∧ ((∃ l, res = (Some l, None) ∧ Validate (Some l) s' = Some (None, s'))
       ∨ (∃ e, res = (None, Some e)))
    ∧ res = (None,
             Some (Wrap ("reading config from " +:+ quote "/etc/broken.yaml"
                         +:+ ": ")
                     (New "yaml: did not find expected node content"))).
Proof.
  destruct (PrepareConfig_result_or_error "/etc/broken.yaml" ["192.0.2.1"]
              "eth0" 0 0 0 emptyState)
    as (res & s' & Hrun & Hres & _ & Hdecode & _).
  { intros Hstage. vm_compute in Hstage. discriminate. }
  exists res, s'. split; [exact Hrun|]. split; [exact Hres|].
  apply Hdecode; [discriminate|reflexivity|reflexivity].
Defined.

(** X8, X9: two targets over the sample file. *)
Lemma PrepareConfig_servers_bounds_witness :
  ∃ l s' base c,
    PrepareConfig "/etc/sptp.yaml" ["host-a"; "host-b"] "" 0 0 0 emptyState
    = Some ((Some l, None), s')
    ∧ fileStage "/etc/sptp.yaml" = (Some base, None) ∧ heap s' !! l = Some c
    ∧ (1 ≤ size (Servers c))%nat
    ∧ (size (Servers c) ≤ 2)%nat.
Proof.
  assert (∃ s', PrepareConfig "/etc/sptp.yaml" ["host-a"; "host-b"] "" 0 0 0
                  emptyState = Some ((Some 1%nat, None), s')) as [s' Hrun].
  { eexists. vm_compute. reflexivity. }
  destruct (PrepareConfig_servers_bounds "/etc/sptp.yaml"
              ["host-a"; "host-b"] "" 0 0 0 emptyState 1%nat s' Hrun)
    as (base & c & Hstage & Hc & Hone & Hle & _).
  exists 1%nat, s', base, c.
  split; [exact Hrun|]. split; [exact Hstage|]. split; [exact Hc|].
  split; [exact Hone|]. apply Hle. discriminate.
Defined.

Lemma PrepareConfig_fresh_object_witness :
  ∃ l s',
    PrepareConfig "/etc/sptp.yaml" ["host-a"; "host-b"] "" 0 0 0 emptyState
    = Some ((Some l, None), s')
    ∧ heap emptyState !! l = None
    ∧ (∀ l0 c0, heap emptyState !! l0 = Some c0 → heap s' !! l0 = Some c0)
    ∧ ∀ cfgPath2 targets2 iface2 monitoringPort2 interval2 dscp2 l2 s2,
        PrepareConfig cfgPath2 targets2 iface2 monitoringPort2 interval2
          dscp2 s' = Some ((Some l2, None), s2) →
        l2 ≠ l ∧ heap s2 !! l = heap s' !! l.
Proof.
  assert (∃ s', PrepareConfig "/etc/sptp.yaml" ["host-a"; "host-b"] "" 0 0 0
                  emptyState = Some ((Some 1%nat, None), s')) as [s' Hrun].
  { eexists. vm_compute. reflexivity. }
  exists 1%nat, s'. split; [exact Hrun|].
  exact (PrepareConfig_fresh_object "/etc/sptp.yaml" ["host-a"; "host-b"] ""
           0 0 0 emptyState 1%nat s' Hrun).
Defined.

(** X14: no file, no target, the interface [eth0]. *)
Lemma PrepareConfig_no_servers_witness :
  ∃ s',
    PrepareConfig "" [] "eth0" 0 0 0 emptyState
    = Some ((None,
             Some (Wrap "validating config: "
                     (New "at least one server must be specified"))), s').
Proof.
  apply (PrepareConfig_no_servers "eth0" 0 0 0 emptyState).
  - reflexivity.
  - reflexivity.
  - left. reflexivity.
Defined.

End MoreSamples.
